(** * langcode: hooks, plugin loader and marketplace resolver

    A shallow embedding of the policy layer of the [langcode] package
    ([hooks/], [plugins/], [core/config.py]) together with the properties
    its specification states about it.

    Conventions.
    - Python [str] is [string]; [int] is [Z]; a JSON value is [Json.json],
      with an object kept as an insertion-ordered association list, the way
      a Python [dict] iterates.
    - A function that may raise returns an [outcome]: [Ok v], [Raise e], or
      [Unmodelled] when the input breaks the dataclass annotations of the
      source (a field annotated [str] holding a number, say), where the
      embedding makes no statement.
    - Library calls whose result the source only consumes ([json.loads],
      [re.compile], [repr]) are the fields of the class [PyLib]; theorems
      hold for every instance, and [Mini.lib] is a small executable instance
      used to run the definitions on concrete inputs.
    - Effects on the outside world (spawning a hook command, prompting the
      user, calling the wrapped tool handler, printing) are recorded in a
      chronological [trace]; what the world answers is read from a [World]
      that may depend on the trace so far.
    - The file system is a function from absolute paths to entries. *)

From stdpp Require Import base strings list gmap.
From Stdlib Require Import ZArith Ascii String Lia Bool DecimalString.

Open Scope string_scope.
Open Scope list_scope.
Open Scope Z_scope.

Set Warnings "-register-all".

(* ================================================================== *)
(** ** Python values, exceptions and strings *)
(* ================================================================== *)

Module Py.

Inductive exn_kind :=
| JSONDecodeError | AttributeError | TypeError | OSError | KeyError | ReError.

(** An exception with the text [str(e)] gives. *)
Record exn := Exn { kind : exn_kind; str : string }.

Inductive outcome (A : Type) :=
| Ok (a : A)
| Raise (e : exn)
| Unmodelled.
Arguments Ok {A} a.
Arguments Raise {A} e.
Arguments Unmodelled {A}.

Definition bind {A B} (m : outcome A) (k : A -> outcome B) : outcome B :=
  match m with
  | Ok a => k a
  | Raise e => Raise e
  | Unmodelled => Unmodelled
  end.

(** [try: m  except kinds: h]. *)
Definition catch {A} (handles : exn_kind -> bool) (m : outcome A)
    (h : exn -> outcome A) : outcome A :=
  match m with
  | Raise e => if handles (kind e) then h e else Raise e
  | other => other
  end.

Definition is_ok {A} (m : outcome A) : bool :=
  match m with Ok _ => true | _ => false end.

(** *** Characters *)

Definition code (c : ascii) : nat := nat_of_ascii c.

(** [str.isspace] on the ASCII range. *)
Definition is_space (c : ascii) : bool :=
  let n := code c in
  ((9 <=? n) && (n <=? 13) || (28 <=? n) && (n <=? 32))%nat.

Definition is_upper (c : ascii) : bool :=
  let n := code c in ((65 <=? n) && (n <=? 90))%nat.

Definition is_alnum (c : ascii) : bool :=
  let n := code c in
  ((48 <=? n) && (n <=? 57) || (65 <=? n) && (n <=? 90)
   || (97 <=? n) && (n <=? 122))%nat.

Definition is_digit (c : ascii) : bool :=
  let n := code c in ((48 <=? n) && (n <=? 57))%nat.

(** The double quote character. *)
Definition dquote : ascii := ascii_of_nat 34.

Definition lower_char (c : ascii) : ascii :=
  if is_upper c then ascii_of_nat (code c + 32) else c.

(** *** Strings *)

Fixpoint lower (s : string) : string :=
  match s with
  | "" => ""
  | String c s' => String (lower_char c) (lower s')
  end.

Fixpoint lstrip_by (p : ascii -> bool) (s : string) : string :=
  match s with
  | "" => ""
  | String c s' => if p c then lstrip_by p s' else s
  end.

Fixpoint rev_string (acc s : string) : string :=
  match s with
  | "" => acc
  | String c s' => rev_string (String c acc) s'
  end.

Definition rstrip_by (p : ascii -> bool) (s : string) : string :=
  rev_string "" (lstrip_by p (rev_string "" s)).

(** [s.strip()]. *)
Definition strip (s : string) : string :=
  rstrip_by is_space (lstrip_by is_space s).

Fixpoint mem_char (c : ascii) (chars : string) : bool :=
  match chars with
  | "" => false
  | String d r => Ascii.eqb c d || mem_char c r
  end.

(** [s.lstrip(chars)]. *)
Definition lstrip_chars (chars s : string) : string :=
  lstrip_by (fun c => mem_char c chars) s.

Definition startswith (s p : string) : bool := String.prefix p s.

Definition endswith (s p : string) : bool :=
  String.prefix (rev_string "" p) (rev_string "" s).

Fixpoint drop (n : nat) (s : string) : string :=
  match n, s with
  | O, _ => s
  | S k, "" => ""
  | S k, String _ s' => drop k s'
  end.

(** [sub in s]. *)
Fixpoint contains (s sub : string) : bool :=
  String.prefix sub s ||
  match s with
  | "" => false
  | String _ s' => contains s' sub
  end.

(** [s.split(sep, 1)] for a one-character separator that occurs in [s]:
    the text before the first [sep] and the text after it. *)
Fixpoint split_once (sep : ascii) (s : string) : option (string * string) :=
  match s with
  | "" => None
  | String c s' =>
      if Ascii.eqb c sep then Some ("", s')
      else match split_once sep s' with
           | Some (a, b) => Some (String c a, b)
           | None => None
           end
  end.

(** [s.split(sep)] for a one-character separator. *)
Fixpoint split_on (sep : ascii) (s : string) : list string :=
  match s with
  | "" => [""]
  | String c s' =>
      match split_on sep s' with
      | [] => [String c ""]
      | w :: ws => if Ascii.eqb c sep then "" :: w :: ws
                   else String c w :: ws
      end
  end.

(** [s.replace(old, new)] for a non-empty [old]: occurrences are taken left
    to right and do not overlap; [skip] counts the characters of an
    occurrence that are still to be dropped. *)
Fixpoint replace_from (old new : string) (skip : nat) (s : string) : string :=
  match s with
  | "" => ""
  | String c s' =>
      match skip with
      | S k => replace_from old new k s'
      | O =>
          if String.prefix old s
          then new +:+ replace_from old new (String.length old - 1) s'
          else String c (replace_from old new O s')
      end
  end.

Definition replace (s old new : string) : string :=
  replace_from old new O s.

(** [sep.join(parts)]. *)
Fixpoint join (sep : string) (parts : list string) : string :=
  match parts with
  | [] => ""
  | [p] => p
  | p :: ps => p +:+ sep +:+ join sep ps
  end.

(** [s[:n]]. *)
Fixpoint take (n : nat) (s : string) : string :=
  match n, s with
  | O, _ => ""
  | S k, "" => ""
  | S k, String c s' => String c (take k s')
  end.

End Py.

Export Py(outcome, Ok, Raise, Unmodelled, exn, Exn).

Notation "'let*' x ':=' m 'in' k" := (Py.bind m (fun x => k))
  (at level 10, x name, m at level 100, k at level 200).

(* ================================================================== *)
(** ** JSON values and Python dictionaries *)
(* ================================================================== *)

Module Json.

Inductive json :=
| JNull
| JBool (b : bool)
| JNum (z : Z)
| JStr (s : string)
| JArr (items : list json)
| JObj (members : list (string * json)).

(** A [dict] with [str] keys, in insertion order, keys pairwise distinct. *)
Definition dict := list (string * json).

(** [d.get(k)], [None] when the key is absent. *)
Fixpoint get (k : string) (d : dict) : option json :=
  match d with
  | [] => None
  | (k', v) :: rest => if String.eqb k k' then Some v else get k rest
  end.

(** [k in d]. *)
Definition has (k : string) (d : dict) : bool :=
  match get k d with Some _ => true | None => false end.

(** [d.get(k, default)]. *)
Definition get_or (k : string) (default : json) (d : dict) : json :=
  match get k d with Some v => v | None => default end.

(** [d[k] = v]: an existing key keeps its place, a new key goes last. *)
Fixpoint set (k : string) (v : json) (d : dict) : dict :=
  match d with
  | [] => [(k, v)]
  | (k', v') :: rest =>
      if String.eqb k k' then (k', v) :: rest else (k', v') :: set k v rest
  end.

(** [d.update(other)], also [{**d, **other}]. *)
Definition update (d other : dict) : dict :=
  fold_left (fun acc kv => set (fst kv) (snd kv) acc) other d.

Definition keys (d : dict) : list string := map fst d.

(** Truth value of a JSON value used as a condition. *)
Definition truthy (v : json) : bool :=
  match v with
  | JNull => false
  | JBool b => b
  | JNum z => negb (z =? 0)
  | JStr s => negb (String.eqb s "")
  | JArr l => match l with [] => false | _ => true end
  | JObj d => match d with [] => false | _ => true end
  end.

(** [type(v).__name__]. *)
Definition type_name (v : json) : string :=
  match v with
  | JNull => "NoneType"
  | JBool _ => "bool"
  | JNum _ => "int"
  | JStr _ => "str"
  | JArr _ => "list"
  | JObj _ => "dict"
  end.

(** What [v.attr] raises when [v] has no such attribute. *)
Definition no_attribute {A} (v : json) (attr : string) : outcome A :=
  Raise (Exn Py.AttributeError
    ("'" +:+ type_name v +:+ "' object has no attribute '" +:+ attr +:+ "'")).

End Json.

Export Json(json, JNull, JBool, JNum, JStr, JArr, JObj).

(** The library functions the source calls and whose results it only
    consumes. [re_compile ignorecase pat] is [re.compile(pat, flags)] with
    [None] for [re.error], whose text is then [re_error]; [json_loads]
    gives [None] for
    [json.JSONDecodeError], whose text is then [json_error];
    [json_dumps] is [json.dumps(v, indent=2)]; [py_repr] is [repr]. *)
Class PyLib := {
  pattern : Type;
  re_compile : bool -> string -> option pattern;
  re_search : pattern -> string -> bool;
  re_error : string -> string;
  json_loads : string -> option json;
  json_error : string -> string;
  json_dumps : json -> string;
  py_repr : json -> string;
}.

(** [str(v)]. *)
Definition py_str `{PyLib} (v : json) : string :=
  match v with
  | JStr s => s
  | _ => py_repr v
  end.

(* ================================================================== *)
(** ** The outside world: subprocesses, the terminal, the tool handler *)
(* ================================================================== *)

Module Sys.

(** [request.tool_call]: the [args] key may be missing. *)
Record ToolCall := {
  tc_name : string;
  tc_id : string;
  tc_args : option Json.dict;
}.

(** How a call of [subprocess.run] ends. *)
Inductive proc_outcome :=
| Completed (returncode : Z) (stdout stderr : string)
| TimeoutExpired
| SpawnError (e : exn).

Inductive event :=
| EvRun (cmd : string) (timeout : Z)      (* subprocess.run(cmd, shell=True) *)
| EvPrint (text : string)                 (* console.print *)
| EvPrompt (text : string)                (* pt_prompt *)
| EvHandler (request : ToolCall).         (* handler(request) *)

Definition trace := list event.

Record World := {
  subprocess_run : trace -> string -> Z -> proc_outcome;
  pt_prompt : trace -> string -> string;
}.

(** Computations that read and extend the trace and may raise. *)
Definition M (A : Type) : Type := trace -> outcome (A * trace).

Definition ret {A} (a : A) : M A := fun tr => Ok (a, tr).

Definition bind {A B} (m : M A) (k : A -> M B) : M B :=
  fun tr =>
    match m tr with
    | Ok (a, tr') => k a tr'
    | Raise e => Raise e
    | Unmodelled => Unmodelled
    end.

Definition lift {A} (o : outcome A) : M A :=
  fun tr => match o with
            | Ok a => Ok (a, tr)
            | Raise e => Raise e
            | Unmodelled => Unmodelled
            end.

Definition emit (e : event) : M unit := fun tr => Ok (tt, tr ++ [e]).

Definition history : M trace := fun tr => Ok (tr, tr).

(** [for x in xs: acc = body(x, acc)]. *)
Fixpoint for_each {A S} (xs : list A) (body : A -> S -> M S) (acc : S) : M S :=
  match xs with
  | [] => ret acc
  | x :: rest => bind (body x acc) (for_each rest body)
  end.

Definition is_run (e : event) : bool :=
  match e with EvRun _ _ => true | _ => false end.

(** The commands handed to [subprocess.run], and the requests handed to the
    handler, in a trace. *)
Definition runs (tr : trace) : list string :=
  omap (fun e => match e with EvRun c _ => Some c | _ => None end) tr.
Definition handler_calls (tr : trace) : list ToolCall :=
  omap (fun e => match e with EvHandler r => Some r | _ => None end) tr.

End Sys.

Notation "'do' x ':=' m 'in' k" := (Sys.bind m (fun x => k))
  (at level 10, x name, m at level 100, k at level 200).

(* ================================================================== *)
(** ** hooks/models.py *)
(* ================================================================== *)

Module Hooks.

Definition HOOK_EVENTS : list string :=
  [ "PreToolUse"; "PostToolUse"; "Stop"; "SubagentStop"; "SessionStart";
    "SessionEnd"; "UserPromptSubmit"; "PreCompact"; "Notification" ].

(** A single hook action, either a shell command or a prompt message. *)
Record HookDef := {
  type : string;
  command : string;
  prompt : string;
  timeout : Z;
}.

(** [HookDef(type=t, command=c, prompt=p)] with the default timeout. *)
Definition mkHookDef (t c p : string) : HookDef :=
  {| type := t; command := c; prompt := p; timeout := 30 |}.

(** A matcher and the hooks that fire when it matches. The source caches
    the compiled pattern in [_pattern]; compiling again gives the same
    pattern, so the cache is not part of the value. *)
Record HookRule := {
  matcher : string;
  hooks : list HookDef;
}.

(** [HookRule.matches]. The pattern is compiled without flags. *)
Definition matches `{PyLib} (self : HookRule) (value : string) : bool :=
  if String.eqb (matcher self) "*" then true
  else match re_compile false (matcher self) with
       | None => String.eqb (matcher self) value
       | Some p => re_search p value
       end.

(** All hook rules grouped by event type. *)
Record HooksConfig := {
  PreToolUse : list HookRule;
  PostToolUse : list HookRule;
  Stop : list HookRule;
  SubagentStop : list HookRule;
  SessionStart : list HookRule;
  SessionEnd : list HookRule;
  UserPromptSubmit : list HookRule;
  PreCompact : list HookRule;
  Notification : list HookRule;
}.

(** [HooksConfig()]. *)
Definition empty : HooksConfig :=
  {| PreToolUse := []; PostToolUse := []; Stop := []; SubagentStop := [];
     SessionStart := []; SessionEnd := []; UserPromptSubmit := [];
     PreCompact := []; Notification := [] |}.

(** [getattr(self, event, [])] for an event name; a name that is not a
    field gives the default. *)
Definition get_rules (self : HooksConfig) (event : string) : list HookRule :=
  if String.eqb event "PreToolUse" then PreToolUse self
  else if String.eqb event "PostToolUse" then PostToolUse self
  else if String.eqb event "Stop" then Stop self
  else if String.eqb event "SubagentStop" then SubagentStop self
  else if String.eqb event "SessionStart" then SessionStart self
  else if String.eqb event "SessionEnd" then SessionEnd self
  else if String.eqb event "UserPromptSubmit" then UserPromptSubmit self
  else if String.eqb event "PreCompact" then PreCompact self
  else if String.eqb event "Notification" then Notification self
  else [].

(** [setattr(self, event, rules)] for one of the nine fields. *)
Definition set_rules (self : HooksConfig) (event : string)
    (rules : list HookRule) : HooksConfig :=
  let pick name old := if String.eqb event name then rules else old in
  {| PreToolUse := pick "PreToolUse" (PreToolUse self);
     PostToolUse := pick "PostToolUse" (PostToolUse self);
     Stop := pick "Stop" (Stop self);
     SubagentStop := pick "SubagentStop" (SubagentStop self);
     SessionStart := pick "SessionStart" (SessionStart self);
     SessionEnd := pick "SessionEnd" (SessionEnd self);
     UserPromptSubmit := pick "UserPromptSubmit" (UserPromptSubmit self);
     PreCompact := pick "PreCompact" (PreCompact self);
     Notification := pick "Notification" (Notification self) |}.

(** [self.merge(other)]: the value of [self] after the call. Each event's
    list is extended in place with the other's. *)
Definition merge (self other : HooksConfig) : HooksConfig :=
  fold_left
    (fun acc event =>
       set_rules acc event (get_rules acc event ++ get_rules other event))
    HOOK_EVENTS self.

Definition is_empty (self : HooksConfig) : bool :=
  forallb (fun e => Nat.eqb (List.length (get_rules self e)) 0) HOOK_EVENTS.

(* ---------------------------------------------------------------- *)
(** *** hooks/engine.py *)

(** Result of executing hooks for one event. *)
Record HookResult := {
  permission : string;
  updated_input : option Json.dict;
  decision : string;
  reason : string;
  messages : list string;
}.

(** [HookResult()]. *)
Definition default_result : HookResult :=
  {| permission := "allow"; updated_input := None; decision := "approve";
     reason := ""; messages := [] |}.

Definition with_permission (r : HookResult) (p : string) : HookResult :=
  {| permission := p; updated_input := updated_input r;
     decision := decision r; reason := reason r; messages := messages r |}.

Definition with_updated_input (r : HookResult) (u : option Json.dict)
    : HookResult :=
  {| permission := permission r; updated_input := u;
     decision := decision r; reason := reason r; messages := messages r |}.

Definition with_decision (r : HookResult) (d : string) : HookResult :=
  {| permission := permission r; updated_input := updated_input r;
     decision := d; reason := reason r; messages := messages r |}.

Definition with_reason (r : HookResult) (s : string) : HookResult :=
  {| permission := permission r; updated_input := updated_input r;
     decision := decision r; reason := s; messages := messages r |}.

(** [result.messages.append(m)]. *)
Definition append_message (r : HookResult) (m : string) : HookResult :=
  {| permission := permission r; updated_input := updated_input r;
     decision := decision r; reason := reason r;
     messages := messages r ++ [m] |}.

(** A [dict[str, str]]. *)
Definition variables := list (string * string).

Fixpoint var_get (k : string) (vs : variables) : option string :=
  match vs with
  | [] => None
  | (k', v) :: rest => if String.eqb k k' then Some v else var_get k rest
  end.

(** The command line [run_command_hook] hands to the shell. *)
Definition substituted_command (hook : HookDef) (vars : option variables)
    : string :=
  let cmd := command hook in
  match vars with
  | None | Some [] => cmd
  | Some vs =>
      let cmd :=
        match var_get "CLAUDE_PLUGIN_ROOT" vs with
        | Some root => Py.replace cmd "${CLAUDE_PLUGIN_ROOT}" root
        | None => cmd
        end in
      fold_left (fun c kv => Py.replace c ("$" +:+ fst kv) (snd kv)) vs cmd
  end.

(** [run_command_hook]: returns [(exit_code, stdout, stderr)]. Both
    [except] clauses turn the failure into a return value. *)
Definition run_command_hook (W : Sys.World) (hook : HookDef)
    (vars : option variables) : Sys.M (Z * string * string) :=
  let cmd := substituted_command hook vars in
  do tr := Sys.history in
  do _ := Sys.emit (Sys.EvRun cmd (timeout hook)) in
  match Sys.subprocess_run W tr cmd (timeout hook) with
  | Sys.Completed rc out err => Sys.ret (rc, out, err)
  | Sys.TimeoutExpired => Sys.ret (-1, "", "hook timed out")
  | Sys.SpawnError e => Sys.ret (-1, "", Py.str e)
  end.

(** A field annotated [str] read from hook output. *)
Definition str_field (v : json) : outcome string :=
  match v with JStr s => Ok s | _ => Unmodelled end.

(** [_parse_hook_output]: the value of [result] after the call. *)
Definition _parse_hook_output `{PyLib} (stdout event : string)
    (result : HookResult) : outcome HookResult :=
  if String.eqb stdout "" || negb (Py.startswith stdout "{") then Ok result
  else
    match json_loads stdout with
    | None => Ok result
    | Some (JObj data) =>
        let hso := Json.get_or "hookSpecificOutput" (JObj []) data in
        let* result :=
          if Json.truthy hso then
            match hso with
            | JObj h =>
                let* result :=
                  match Json.get "permissionDecision" h with
                  | Some v => let* p := str_field v in
                              Ok (with_permission result p)
                  | None => Ok result
                  end in
                match Json.get "updatedInput" h with
                | Some (JObj u) => Ok (with_updated_input result (Some u))
                | Some JNull => Ok (with_updated_input result None)
                | Some _ => Unmodelled
                | None => Ok result
                end
            | _ => Unmodelled
            end
          else Ok result in
        let* result :=
          match Json.get "decision" data with
          | Some v => let* d := str_field v in Ok (with_decision result d)
          | None => Ok result
          end in
        let* result :=
          match Json.get "reason" data with
          | Some v => let* s := str_field v in Ok (with_reason result s)
          | None => Ok result
          end in
        match Json.get "systemMessage" data with
        | Some msg =>
            if Json.truthy msg
            then let* m := str_field msg in Ok (append_message result m)
            else Ok result
        | None => Ok result
        end
    | Some other => Json.no_attribute other "get"
    end.

(** The body of the inner loop of [execute_hooks] for one hook. *)
Definition run_hook `{PyLib} (W : Sys.World) (event : string)
    (vars : option variables) (hook : HookDef) (result : HookResult)
    : Sys.M HookResult :=
  if String.eqb (type hook) "command" then
    if String.eqb (command hook) "__confirm__" then
      Sys.ret (with_permission result "ask")
    else
      do r := run_command_hook W hook vars in
      let '(exit_code, stdout, stderr) := r in
      let result :=
        if negb (String.eqb (Py.strip stdout) "")
        then append_message result (Py.strip stdout) else result in
      let result :=
        if (exit_code =? 2) && negb (String.eqb (Py.strip stderr) "")
        then append_message result (Py.strip stderr) else result in
      Sys.lift (_parse_hook_output (Py.strip stdout) event result)
  else if String.eqb (type hook) "prompt"
          && negb (String.eqb (prompt hook) "") then
    Sys.ret (append_message result (prompt hook))
  else Sys.ret result.

(** The body of the outer loop for one rule. *)
Definition run_rule `{PyLib} (W : Sys.World) (event match_value : string)
    (vars : option variables) (rule : HookRule) (result : HookResult)
    : Sys.M HookResult :=
  if negb (matches rule match_value) then Sys.ret result
  else Sys.for_each (hooks rule) (run_hook W event vars) result.

(** [execute_hooks]: run all matching hooks for an event. *)
Definition execute_hooks `{PyLib} (W : Sys.World) (config : HooksConfig)
    (event match_value : string) (vars : option variables)
    : Sys.M HookResult :=
  Sys.for_each (get_rules config event)
    (run_rule W event match_value vars) default_result.

End Hooks.

(* ================================================================== *)
(** ** hooks/parser.py *)
(* ================================================================== *)

Module Parser.
Import Hooks.

(** [re.escape]: a backslash before each of the characters
    [()[]{}?*+-|^$\.&~#], space, tab, newline, return, VT and FF. *)
Definition is_special (c : ascii) : bool :=
  Py.mem_char c "()[]{}?*+-|^$\.&~# "
  || let n := Py.code c in ((9 <=? n) && (n <=? 13))%nat.

Fixpoint re_escape (s : string) : string :=
  match s with
  | "" => ""
  | String c s' =>
      if is_special c then String "\" (String c (re_escape s'))
      else String c (re_escape s')
  end.

(** [raw.get(key, default)] for a field annotated [str]. *)
Definition get_str (key default : string) (raw : Json.dict) : outcome string :=
  match Json.get key raw with
  | None => Ok default
  | Some v => str_field v
  end.

Definition parse_hook_def (raw : json) : outcome HookDef :=
  match raw with
  | JObj raw =>
      let* t := get_str "type" "command" raw in
      let* c := get_str "command" "" raw in
      let* p := get_str "prompt" "" raw in
      let* n := match Json.get "timeout" raw with
                | None => Ok 30
                | Some (JNum n) => Ok n
                | Some _ => Unmodelled
                end in
      Ok {| type := t; command := c; prompt := p; timeout := n |}
  | other => Json.no_attribute other "get"
  end.

(** [[f(x) for x in xs]], stopping at the first exception. *)
Fixpoint map_outcome {A B} (f : A -> outcome B) (xs : list A)
    : outcome (list B) :=
  match xs with
  | [] => Ok []
  | x :: rest =>
      let* y := f x in
      let* ys := map_outcome f rest in
      Ok (y :: ys)
  end.

Definition parse_hook_rule (raw : Json.dict) : outcome HookRule :=
  let* m := get_str "matcher" "*" raw in
  let* hs := match Json.get_or "hooks" (JArr []) raw with
             | JArr items => map_outcome parse_hook_def items
             | _ => Unmodelled
             end in
  Ok {| matcher := m; hooks := hs |}.

(** The members of a list that are objects, [if isinstance(r, dict)]. *)
Definition only_dicts (items : list json) : list Json.dict :=
  omap (fun r => match r with JObj d => Some d | _ => None end) items.

(** [any(k in HOOK_EVENTS for k in d)]. *)
Definition has_event_key (d : Json.dict) : bool :=
  existsb (fun k => existsb (String.eqb k) HOOK_EVENTS) (Json.keys d).

(** [parse_hooks_config]: a Claude Code-style hooks config dict. *)
Definition parse_hooks_config (data : Json.dict) : outcome HooksConfig :=
  let data :=
    match Json.get "hooks" data with
    | Some (JObj inner) => if has_event_key inner then inner else data
    | _ => data
    end in
  fold_left
    (fun acc event =>
       let* cfg := acc in
       match Json.get event data with
       | Some (JArr items) =>
           let* rules := map_outcome parse_hook_rule (only_dicts items) in
           Ok (set_rules cfg event rules)
       | _ => Ok cfg
       end)
    HOOK_EVENTS (Ok empty).

(** [convert_legacy_hooks]: old-style [{"pre:Write": "confirm"}]. *)
Definition convert_legacy_hooks (legacy : list (string * string))
    : HooksConfig :=
  fold_left
    (fun cfg kv =>
       let '(key, value) := kv in
       match Py.split_once ":" key with
       | None => cfg
       | Some (prefix, tool_name) =>
           if String.eqb prefix "pre" then
             let hook_def :=
               mkHookDef "command"
                 (if String.eqb value "confirm" then "__confirm__" else value)
                 "" in
             set_rules cfg "PreToolUse"
               (PreToolUse cfg ++
                [{| matcher := re_escape tool_name; hooks := [hook_def] |}])
           else if String.eqb prefix "post" then
             set_rules cfg "PostToolUse"
               (PostToolUse cfg ++
                [{| matcher := re_escape tool_name;
                    hooks := [mkHookDef "command" value ""] |}])
           else cfg
       end)
    legacy empty.

End Parser.

(* ================================================================== *)
(** ** hooks/middleware.py *)
(* ================================================================== *)

Module Middleware.
Import Hooks Sys.

(** What a tool call evaluates to: a [ToolMessage] or a [Command]. *)
Inductive ToolResult :=
| ToolMessage (content tool_call_id : string)
| Command (payload : json).

(** The wrapped handler: it sees the request and may raise. *)
Definition Handler := trace -> ToolCall -> outcome ToolResult.

Definition newline : string := String (ascii_of_nat 10) "".

(** [a or b]. *)
Definition py_or (a b : json) : json := if Json.truthy a then a else b.

(** [answer not in ("y", "yes")] after [strip().lower()], negated. *)
Definition said_yes (answer : string) : bool :=
  let a := Py.lower (Py.strip answer) in
  String.eqb a "y" || String.eqb a "yes".

(** [for msg in messages: if keep(msg): console.print(...)]. *)
Definition print_messages (keep : string -> bool) (msgs : list string)
    : M unit :=
  for_each msgs
    (fun msg _ =>
       if keep msg then emit (EvPrint ("  [dim]hook: " +:+ msg +:+ "[/dim]"))
       else ret tt)
    tt.

Definition denied (content : string) (request : ToolCall) : ToolResult :=
  ToolMessage content (tc_id request).

(** [HooksMiddleware.wrap_tool_call], with [self.config.hooks] as [config].
    The request is updated in place in the source; here the updated request
    is the one passed on. *)
Definition wrap_tool_call `{PyLib} (W : World) (config : HooksConfig)
    (request : ToolCall) (handler : Handler) : M ToolResult :=
  let tool_name := tc_name request in
  let args := match tc_args request with Some a => a | None => [] end in
  let file_path :=
    py_or (Json.get_or "file_path" (JStr "") args)
          (Json.get_or "path" (JStr "") args) in
  let vars := Some [("TOOL_NAME", tool_name); ("FILE", py_str file_path)] in
  do pre_result := execute_hooks W config "PreToolUse" tool_name vars in
  if String.eqb (permission pre_result) "deny" then
    ret (denied "Tool call denied by hook." request)
  else
    do allowed :=
      (if String.eqb (permission pre_result) "ask" then
         let args_preview := Py.take 200 (py_str (JObj args)) in
         do _ := emit (EvPrint (newline +:+ "[bold yellow]Tool:[/bold yellow] "
                         +:+ tool_name +:+ newline +:+ "[dim]" +:+ args_preview
                         +:+ "[/dim]")) in
         do tr := history in
         do _ := emit (EvPrompt "Allow? [y/N] ") in
         ret (said_yes (pt_prompt W tr "Allow? [y/N] "))
       else ret true) in
    if negb allowed then
      ret (denied "Tool call denied by user." request)
    else
      let request :=
        match updated_input pre_result with
        | Some ((_ :: _) as patch) =>
            {| tc_name := tc_name request; tc_id := tc_id request;
               tc_args := Some (Json.update args patch) |}
        | _ => request
        end in
      do _ := print_messages
                (fun msg => negb (String.eqb msg "")
                            && negb (String.eqb msg "__confirm__"))
                (messages pre_result) in
      do tr := history in
      do _ := emit (EvHandler request) in
      do result := lift (handler tr request) in
      do post_result := execute_hooks W config "PostToolUse" tool_name vars in
      do _ := print_messages (fun msg => negb (String.eqb msg ""))
                (messages post_result) in
      ret result.

End Middleware.

(* ================================================================== *)
(** ** The file system *)
(* ================================================================== *)

Module Fs.

(** An absolute path, as its components below the root. *)
Definition path := list string.

(** What is found at a path. [Unreadable] is a file whose read raises
    [OSError]; [StatError] is a path whose [stat] raises an [OSError] that
    [pathlib] does not swallow (permission denied, say). *)
Inductive entry :=
| Absent
| Dir
| File (text : string)
| Unreadable (msg : string)
| StatError (msg : string).

Definition fs := path -> entry.

Definition os_error {A} (msg : string) : outcome A :=
  Raise (Exn Py.OSError msg).

Definition exists_ (f : fs) (p : path) : outcome bool :=
  match f p with
  | Absent => Ok false
  | StatError m => os_error m
  | _ => Ok true
  end.

Definition is_dir (f : fs) (p : path) : outcome bool :=
  match f p with
  | Dir => Ok true
  | StatError m => os_error m
  | _ => Ok false
  end.

Definition is_file (f : fs) (p : path) : outcome bool :=
  match f p with
  | File _ | Unreadable _ => Ok true
  | StatError m => os_error m
  | _ => Ok false
  end.

Definition read_text (f : fs) (p : path) : outcome string :=
  match f p with
  | File t => Ok t
  | Unreadable m | StatError m => os_error m
  | Dir => os_error "Is a directory"
  | Absent => os_error "No such file or directory"
  end.

(** The components of a path string; empty components and [.] are dropped
    as [pathlib] does, [..] is kept. *)
Definition parts (s : string) : list string :=
  List.filter (fun c => negb (String.eqb c "" || String.eqb c "."))
    (Py.split_on "/" s).

(** [p / s]: an absolute [s] replaces [p]. *)
Definition joinpath (p : path) (s : string) : path :=
  if Py.startswith s "/" then parts s else p ++ parts s.

(** [p.name]. *)
Definition name (p : path) : string := List.last p "".

(** [p.suffix]: the last dot of the name and what follows, unless the dot
    is the first or the last character. *)
Definition suffix (p : path) : string :=
  match Py.split_once "." (Py.rev_string "" (name p)) with
  | Some (rev_ext, rest) =>
      if String.eqb rev_ext "" || String.eqb rest "" then ""
      else String "." (Py.rev_string "" rev_ext)
  | None => ""
  end.

(** [str(p)]. *)
Definition path_str (p : path) : string := "/" +:+ Py.join "/" p.

Definition path_eqb (p q : path) : bool :=
  (List.length p =? List.length q)%nat
  && forallb (fun ab => String.eqb (fst ab) (snd ab)) (combine p q).

(** [p] is [q] or an ancestor of [q]. *)
Fixpoint is_prefix (p q : path) : bool :=
  match p, q with
  | [], _ => true
  | a :: p', b :: q' => String.eqb a b && is_prefix p' q'
  | _ :: _, [] => false
  end.

(** [q] lies strictly below [p]. *)
Definition below (p q : path) : bool :=
  is_prefix p q && negb (path_eqb p q).

(** [Path(s).resolve()] from a working directory; [..] steps up. Symbolic
    links are not modelled. *)
Definition resolve (cwd : path) (s : string) : path :=
  fold_left
    (fun acc c => if String.eqb c ".." then removelast acc else acc ++ [c])
    (joinpath cwd s) [].

(** *** Operations that change the file system *)

(** A computation over the file system: the file system after it is part of
    the result also when it raises. *)
Definition FsM (A : Type) : Type := fs -> outcome A * fs.

Definition ret {A} (a : A) : FsM A := fun f => (Ok a, f).

Definition bind {A B} (m : FsM A) (k : A -> FsM B) : FsM B :=
  fun f =>
    match m f with
    | (Ok a, f') => k a f'
    | (Raise e, f') => (Raise e, f')
    | (Unmodelled, f') => (Unmodelled, f')
    end.

(** A read-only query. *)
Definition query {A} (q : fs -> outcome A) : FsM A := fun f => (q f, f).

Definition lift {A} (o : outcome A) : FsM A := fun f => (o, f).

(** The ancestors of [p], [p] included, that are not directories. *)
Definition blocked (f : fs) (p : path) : bool :=
  existsb
    (fun n => match f (firstn n p) with
              | Absent | Dir => false
              | _ => true
              end)
    (seq 0 (S (List.length p))).

(** [p.mkdir(parents=True, exist_ok=True)]. *)
Definition mkdir_p (p : path) : FsM unit :=
  fun f =>
    if blocked f p then (os_error "File exists", f)
    else (Ok tt,
          fun q => if is_prefix q p
                   then match f q with Absent => Dir | e => e end
                   else f q).

(** [shutil.rmtree(p)]. *)
Definition rmtree (p : path) : FsM unit :=
  fun f =>
    match f p with
    | Dir => (Ok tt, fun q => if is_prefix p q then Absent else f q)
    | _ => (os_error "Not a directory", f)
    end.

(** [shutil.copy2(src, dest)] of a regular file. *)
Definition copy2 (src dest : path) : FsM unit :=
  fun f =>
    match f src, f (removelast dest), f dest with
    | File text, Dir, (Absent | File _) =>
        (Ok tt, fun q => if path_eqb q dest then File text else f q)
    | _, _, _ => (os_error "cannot copy", f)
    end.

(** [shutil.copytree(src, dest, symlinks=True)], the source tree being read
    from [from]; missing parents of [dest] are created. *)
Definition copytree (from : fs) (src dest : path) : FsM unit :=
  fun f =>
    match from src, f dest with
    | Dir, Absent =>
        if blocked f (removelast dest) then (os_error "Not a directory", f)
        else (Ok tt,
              fun q =>
                if is_prefix dest q
                then from (src ++ skipn (List.length dest) q)
                else if is_prefix q dest
                     then match f q with Absent => Dir | e => e end
                     else f q)
    | Dir, _ => (os_error "File exists", f)
    | _, _ => (os_error "No such file or directory", f)
    end.

(** [p.write_text(text)]: the parent must be a directory. *)
Definition write_text (p : path) (text : string) : FsM unit :=
  fun f =>
    match f (removelast p), f p with
    | Dir, (Absent | File _) =>
        (Ok tt, fun q => if path_eqb q p then File text else f q)
    | _, _ => (os_error "cannot write", f)
    end.

End Fs.

Notation "'fs!' x ':=' m 'in' k" := (Fs.bind m (fun x => k))
  (at level 10, x name, m at level 100, k at level 200).

(* ================================================================== *)
(** ** plugins/models.py and plugins/loader.py *)
(* ================================================================== *)

Module Loader.

(** Parsed from [.claude-plugin/plugin.json]. Fields the loader only
    stores keep the JSON value they were given. *)
Record PluginManifest := {
  name : string;
  version : json;
  description : json;
  author : json;
  homepage : json;
  repository : json;
  license : json;
  keywords : json;
  commands : list json;
  agents : list json;
  skills : list json;
  hooks : json;
  mcp_servers : json;
  lsp_servers : json;
}.

(** [PluginManifest(name=n)]. *)
Definition default_manifest (n : string) : PluginManifest :=
  {| name := n; version := JStr ""; description := JStr "";
     author := JObj []; homepage := JStr ""; repository := JStr "";
     license := JStr ""; keywords := JArr []; commands := [];
     agents := []; skills := []; hooks := JStr "";
     mcp_servers := JStr ""; lsp_servers := JStr "" |}.

Definition with_name (m : PluginManifest) (n : string) : PluginManifest :=
  {| name := n; version := version m; description := description m;
     author := author m; homepage := homepage m;
     repository := repository m; license := license m;
     keywords := keywords m; commands := commands m; agents := agents m;
     skills := skills m; hooks := hooks m; mcp_servers := mcp_servers m;
     lsp_servers := lsp_servers m |}.

(** Resolved component paths and data of a loaded plugin. *)
Record PluginComponents := {
  command_dirs : list Fs.path;
  skill_dirs : list Fs.path;
  agent_dirs : list Fs.path;
  hooks_config : json;
  comp_mcp_servers : json;
}.

(** A loaded plugin with all resolved components. *)
Record Plugin := {
  plugin_name : string;
  root : Fs.path;
  manifest : PluginManifest;
  components : PluginComponents;
  source : string;
  marketplace : string;
  enabled : bool;
  error : string;
}.

(** [PluginComponents()]. *)
Definition no_components : PluginComponents :=
  {| command_dirs := []; skill_dirs := []; agent_dirs := [];
     hooks_config := JObj []; comp_mcp_servers := JObj [] |}.

(** [Plugin(name=.., root=.., manifest=.., components=.., error=..)]. *)
Definition mkPlugin (n : string) (r : Fs.path) (m : PluginManifest)
    (c : PluginComponents) (e : string) : Plugin :=
  {| plugin_name := n; root := r; manifest := m; components := c;
     source := ""; marketplace := ""; enabled := true; error := e |}.

(** [expand_plugin_root]: substitute the placeholder in every string. *)
Fixpoint expand_plugin_root (value : json) (plugin_root : string) : json :=
  match value with
  | JStr s => JStr (Py.replace s "${CLAUDE_PLUGIN_ROOT}" plugin_root)
  | JObj d =>
      JObj (map (fun kv => (fst kv, expand_plugin_root (snd kv) plugin_root)) d)
  | JArr l => JArr (map (fun v => expand_plugin_root v plugin_root) l)
  | other => other
  end.

(** [try: json.loads(path.read_text())], with [None] when the
    [except (json.JSONDecodeError, OSError)] clause is taken. *)
Definition try_load `{PyLib} (f : Fs.fs) (p : Fs.path) : option json :=
  match Fs.read_text f p with
  | Ok text => json_loads text
  | _ => None
  end.

(** The local [_to_list] of [_parse_manifest]. *)
Definition _to_list (val : json) : list json :=
  match val with
  | JStr s => if String.eqb s "" then [] else [JStr s]
  | JArr l => l
  | _ => []
  end.

(** [data.get(key, default)] on a value that must be a [dict]. *)
Definition dget (data : json) (key : string) (default : json) : outcome json :=
  match data with
  | JObj d => Ok (Json.get_or key default d)
  | other => Json.no_attribute other "get"
  end.

Definition _parse_manifest `{PyLib} (f : Fs.fs) (p : Fs.path)
    : outcome (option PluginManifest) :=
  let* present := Fs.exists_ f p in
  if negb present then Ok None
  else
    match try_load f p with
    | None => Ok None
    | Some data =>
        let* n := dget data "name" (JStr "") in
        if negb (Json.truthy n) then Ok None
        else
          let* n := Hooks.str_field n in
          let* version := dget data "version" (JStr "") in
          let* description := dget data "description" (JStr "") in
          let* author := dget data "author" (JObj []) in
          let* homepage := dget data "homepage" (JStr "") in
          let* repository := dget data "repository" (JStr "") in
          let* license := dget data "license" (JStr "") in
          let* keywords := dget data "keywords" (JArr []) in
          let* commands := dget data "commands" (JStr "") in
          let* agents := dget data "agents" (JStr "") in
          let* skills := dget data "skills" (JStr "") in
          let* hooks := dget data "hooks" (JStr "") in
          let* mcp := dget data "mcpServers" (JStr "") in
          let* lsp := dget data "lspServers" (JStr "") in
          Ok (Some {| name := n; version := version;
                      description := description; author := author;
                      homepage := homepage; repository := repository;
                      license := license; keywords := keywords;
                      commands := _to_list commands;
                      agents := _to_list agents; skills := _to_list skills;
                      hooks := hooks; mcp_servers := mcp;
                      lsp_servers := lsp |})
    end.

(** [_deep_merge] on two dictionaries: the value of [result] after the loop
    over [override.items()]. [merge_value v cur] is what is stored under a
    key whose override value is [v] and whose current value is [cur]. *)
Fixpoint merge_value (v : json) (cur : option json) : json :=
  match v, cur with
  | JObj o, Some (JObj b) =>
      JObj ((fix items (o : list (string * json)) (result : Json.dict)
               : Json.dict :=
               match o with
               | [] => result
               | (k, v') :: rest =>
                   items rest
                     (Json.set k (merge_value v' (Json.get k result)) result)
               end) o b)
  | JArr l, Some (JArr bl) => JArr (bl ++ l)
  | _, _ => v
  end.

Definition deep_merge_dicts (base override : Json.dict) : Json.dict :=
  fold_left
    (fun result kv =>
       Json.set (fst kv) (merge_value (snd kv) (Json.get (fst kv) result))
         result)
    override base.

(** [_deep_merge(base, override)]: [dict(base)] of a value that is not a
    dictionary is outside the model; [override.items()] raises on one. *)
Definition _deep_merge (base override : json) : outcome json :=
  match base with
  | JObj b =>
      match override with
      | JObj o => Ok (JObj (deep_merge_dicts b o))
      | other => Json.no_attribute other "items"
      end
  | _ => Unmodelled
  end.

(** [plugin_root / custom.lstrip("./")]. *)
Definition custom_path (plugin_root : Fs.path) (custom : json)
    : outcome Fs.path :=
  match custom with
  | JStr s => Ok (Fs.joinpath plugin_root (Py.lstrip_chars "./" s))
  | other => Json.no_attribute other "lstrip"
  end.

(** [p.is_dir() or (p.is_file() and p.suffix == ".md")]. *)
Definition dir_or_md (f : Fs.fs) (p : Fs.path) : outcome bool :=
  let* d := Fs.is_dir f p in
  if d then Ok true
  else let* isf := Fs.is_file f p in
       Ok (isf && String.eqb (Fs.suffix p) ".md").

(** The directories of one component kind: the conventional one when it is
    a directory, then every declared path that [accept] admits. *)
Definition discover_dirs (f : Fs.fs) (plugin_root : Fs.path)
    (conventional : string) (declared : list json)
    (accept : Fs.fs -> Fs.path -> outcome bool) : outcome (list Fs.path) :=
  let default := Fs.joinpath plugin_root conventional in
  let* d := Fs.is_dir f default in
  fold_left
    (fun acc custom =>
       let* dirs := acc in
       let* p := custom_path plugin_root custom in
       let* ok := accept f p in
       Ok (if ok then dirs ++ [p] else dirs))
    declared (Ok (if d then [default] else [])).

(** [raw.get("mcpServers", raw.get("servers", {}))]. *)
Definition servers_of (raw : json) : outcome json :=
  let* servers := dget raw "servers" (JObj []) in
  dget raw "mcpServers" servers.

(** [mcp_data.update(other)]. *)
Definition mcp_update (mcp_data other : json) : outcome json :=
  match mcp_data with
  | JObj d =>
      match other with
      | JObj o => Ok (JObj (Json.update d o))
      | _ => Unmodelled
      end
  | v => Json.no_attribute v "update"
  end.

(** The hook part of [_discover_components]: the value of [hooks_data]
    before the placeholder is expanded. *)
Definition discover_hooks `{PyLib} (f : Fs.fs) (plugin_root : Fs.path)
    (m : PluginManifest) : outcome json :=
  let default_hooks_json :=
    Fs.joinpath (Fs.joinpath plugin_root "hooks") "hooks.json" in
  let* present := Fs.exists_ f default_hooks_json in
  let hooks_data :=
    if present then
      match try_load f default_hooks_json with
      | Some data => data
      | None => JObj []
      end
    else JObj [] in
  match hooks m with
  | JObj _ => _deep_merge hooks_data (hooks m)
  | JStr s =>
      if String.eqb s "" then Ok hooks_data
      else
        let hook_path := Fs.joinpath plugin_root (Py.lstrip_chars "./" s) in
        let* present := Fs.exists_ f hook_path in
        if present then
          match try_load f hook_path with
          | Some data => _deep_merge hooks_data data
          | None => Ok hooks_data
          end
        else Ok hooks_data
  | _ => Ok hooks_data
  end.

(** The tool-server part: the value of [mcp_data] before expansion. *)
Definition discover_mcp `{PyLib} (f : Fs.fs) (plugin_root : Fs.path)
    (m : PluginManifest) : outcome json :=
  let default_mcp := Fs.joinpath plugin_root ".mcp.json" in
  let* present := Fs.exists_ f default_mcp in
  let* mcp_data :=
    if present then
      match try_load f default_mcp with
      | Some raw => servers_of raw
      | None => Ok (JObj [])
      end
    else Ok (JObj []) in
  match mcp_servers m with
  | JObj _ => mcp_update mcp_data (mcp_servers m)
  | JStr s =>
      if String.eqb s "" then Ok mcp_data
      else
        let mcp_path := Fs.joinpath plugin_root (Py.lstrip_chars "./" s) in
        let* present := Fs.exists_ f mcp_path in
        if present then
          match try_load f mcp_path with
          | Some raw =>
              match mcp_data with
              | JObj _ => let* other := servers_of raw in
                          mcp_update mcp_data other
              | v => Json.no_attribute v "update"
              end
          | None => Ok mcp_data
          end
        else Ok mcp_data
  | _ => Ok mcp_data
  end.

Definition _discover_components `{PyLib} (f : Fs.fs) (plugin_root : Fs.path)
    (m : PluginManifest) : outcome PluginComponents :=
  let root_str := Fs.path_str plugin_root in
  let* cmds := discover_dirs f plugin_root "commands" (commands m) dir_or_md in
  let* skls := discover_dirs f plugin_root "skills" (skills m) Fs.is_dir in
  let* agts := discover_dirs f plugin_root "agents" (agents m) dir_or_md in
  let* hooks_data := discover_hooks f plugin_root m in
  let* mcp_data := discover_mcp f plugin_root m in
  Ok {| command_dirs := cmds; skill_dirs := skls; agent_dirs := agts;
        hooks_config :=
          if Json.truthy hooks_data
          then expand_plugin_root hooks_data root_str else JObj [];
        comp_mcp_servers :=
          if Json.truthy mcp_data
          then expand_plugin_root mcp_data root_str else JObj [] |}.

(** [a or b] on strings. *)
Definition str_or (a b : string) : string :=
  if String.eqb a "" then b else a.

(** [load_plugin]: load a plugin from a directory. *)
Definition load_plugin `{PyLib} (f : Fs.fs) (plugin_root : Fs.path)
    (name_override : string) : outcome Plugin :=
  let fallback := str_or name_override (Fs.name plugin_root) in
  let* d := Fs.is_dir f plugin_root in
  if negb d then
    Ok (mkPlugin fallback plugin_root (default_manifest fallback)
          no_components
          ("plugin directory not found: " +:+ Fs.path_str plugin_root))
  else
    let manifest_path :=
      Fs.joinpath (Fs.joinpath plugin_root ".claude-plugin") "plugin.json" in
    let* parsed := _parse_manifest f manifest_path in
    let m := match parsed with
             | Some m => m
             | None => default_manifest fallback
             end in
    let m := if String.eqb name_override "" then m
             else with_name m name_override in
    match _discover_components f plugin_root m with
    | Ok comps => Ok (mkPlugin (name m) plugin_root m comps "")
    | Raise e => Ok (mkPlugin (name m) plugin_root m no_components (Py.str e))
    | Unmodelled => Unmodelled
    end.

End Loader.

(* ================================================================== *)
(** ** plugins/lifecycle.py *)
(* ================================================================== *)

Module Lifecycle.

(** [_is_plugin_enabled], with [config.enabled_plugins] as the map. *)
Definition _is_plugin_enabled (enabled_plugins : gmap string bool)
    (name marketplace : string) : bool :=
  let key_full :=
    if String.eqb marketplace "" then name
    else name +:+ "@" +:+ marketplace in
  match enabled_plugins !! key_full with
  | Some v => v
  | None =>
      match enabled_plugins !! name with
      | Some v => v
      | None => true
      end
  end.

End Lifecycle.

(* ================================================================== *)
(** ** plugins/marketplace.py *)
(* ================================================================== *)

Module Marketplace.

(** A plugin listing inside a [marketplace.json]. *)
Record PluginEntry := {
  entry_name : string;
  entry_source : json;
  entry_description : json;
  entry_version : json;
  entry_author : json;
  entry_homepage : json;
  entry_keywords : json;
  entry_category : json;
}.

(** A parsed [marketplace.json]. *)
Record Marketplace := {
  name : string;
  owner : json;
  plugins : list PluginEntry;
  description : json;
  source_type : string;
  source_ref : string;
  local_path : option Fs.path;
}.

(** How a [git clone] run by [subprocess.run] ends; [tree] is the file
    system as the clone left it, the target directory included. *)
Inductive git_outcome :=
| GitExit (returncode : Z) (tree : Fs.fs)
| GitTimeout
| GitNotFound
| GitError (e : exn).

Record World := {
  cwd : Fs.path;
  tmp : Fs.path;                          (* tempfile.TemporaryDirectory() *)
  git : list string -> git_outcome;
}.

Definition _marketplace_cache_dir (global_dir : Fs.path) : Fs.path :=
  Fs.joinpath global_dir "marketplaces".

Definition _marketplace_meta_path (global_dir : Fs.path) : Fs.path :=
  Fs.joinpath (Fs.joinpath global_dir "marketplaces") "_marketplaces.json".

Definition _load_marketplace_meta `{PyLib} (global_dir : Fs.path) (f : Fs.fs)
    : outcome json :=
  let path := _marketplace_meta_path global_dir in
  let* present := Fs.exists_ f path in
  if negb present then Ok (JObj [])
  else match Loader.try_load f path with
       | Some meta => Ok meta
       | None => Ok (JObj [])
       end.

Definition _save_marketplace_meta `{PyLib} (global_dir : Fs.path) (meta : json)
    : Fs.FsM unit :=
  let path := _marketplace_meta_path global_dir in
  fs! _ := Fs.mkdir_p (removelast path) in
  Fs.write_text path (json_dumps meta +:+ Middleware.newline).

(** One member of [data.get("plugins", [])]. *)
Definition parse_entry (entry : json) : outcome (option PluginEntry) :=
  match entry with
  | JObj e =>
      let pname := Json.get_or "name" (JStr "") e in
      if negb (Json.truthy pname) then Ok None
      else
        let* pname := Hooks.str_field pname in
        Ok (Some {| entry_name := pname;
                    entry_source := Json.get_or "source" (JStr "") e;
                    entry_description := Json.get_or "description" (JStr "") e;
                    entry_version := Json.get_or "version" (JStr "") e;
                    entry_author := Json.get_or "author" (JObj []) e;
                    entry_homepage := Json.get_or "homepage" (JStr "") e;
                    entry_keywords := Json.get_or "keywords" (JArr []) e;
                    entry_category := Json.get_or "category" (JStr "") e |})
  | _ => Ok None
  end.

(** [_parse_marketplace_json]: parse a [marketplace.json] file. *)
Definition _parse_marketplace_json `{PyLib} (f : Fs.fs) (path : Fs.path)
    : outcome (option Marketplace) :=
  let* present := Fs.exists_ f path in
  if negb present then Ok None
  else
    match Loader.try_load f path with
    | None => Ok None
    | Some data =>
        let* n := Loader.dget data "name" (JStr "") in
        if negb (Json.truthy n) then Ok None
        else
          let* n := Hooks.str_field n in
          let* listed := Loader.dget data "plugins" (JArr []) in
          let* entries :=
            match listed with
            | JArr items => Parser.map_outcome parse_entry items
            | JObj _ | JStr _ => Ok []
            | other =>
                Raise (Exn Py.TypeError
                  ("'" +:+ Json.type_name other +:+ "' object is not iterable"))
            end in
          let* metadata := Loader.dget data "metadata" (JObj []) in
          let desc := match metadata with
                      | JObj md => Json.get_or "description" (JStr "") md
                      | _ => JStr ""
                      end in
          let* owner := Loader.dget data "owner" (JObj []) in
          Ok (Some {| name := n; owner := owner;
                      plugins := omap id entries; description := desc;
                      source_type := ""; source_ref := "";
                      local_path := None |})
    end.

(** [_find_marketplace_json]: the descriptor in its standard locations. *)
Definition _find_marketplace_json (f : Fs.fs) (root : Fs.path)
    : outcome (option Fs.path) :=
  let p := Fs.joinpath (Fs.joinpath root ".claude-plugin") "marketplace.json" in
  let* found := Fs.exists_ f p in
  if found then Ok (Some p)
  else
    let p := Fs.joinpath root "marketplace.json" in
    let* found := Fs.exists_ f p in
    Ok (if found then Some p else None).

(** [_is_github_ref]: does the source look like [owner/repo]. *)
Definition _is_github_ref (source : string) : bool :=
  let parts := Py.split_on "/" (Py.strip source) in
  (List.length parts =? 2)%nat
  && forallb (fun p => negb (String.eqb p "") && negb (Py.startswith p "-"))
       parts
  && negb (Py.startswith source ".")
  && negb (Py.startswith source "/")
  && negb (Py.contains source ":").

Definition _is_git_url (source : string) : bool :=
  Py.endswith source ".git" || Py.startswith source "git@".

(** [s.rsplit(sep, 1)] for a separator that occurs in [s]. *)
Definition rsplit_once (sep : ascii) (s : string) : option (string * string) :=
  match Py.split_once sep (Py.rev_string "" s) with
  | Some (rev_after, rev_before) =>
      Some (Py.rev_string "" rev_before, Py.rev_string "" rev_after)
  | None => None
  end.

(** The command line [_clone_source] builds, [None] when the source is
    neither a GitHub reference nor a git URL. *)
Definition clone_command (source : string) (dest : Fs.path)
    : option (list string) :=
  let split source :=
    match rsplit_once "#" source with
    | Some (s, ref) => (s, ref)
    | None => (source, "")
    end in
  let cmd url ref :=
    ["git"; "clone"; "--depth"; "1"]
    ++ (if String.eqb ref "" then [] else ["--branch"; ref])
    ++ [url; Fs.path_str dest] in
  if _is_github_ref source then
    let '(s, ref) := split source in
    Some (cmd ("https://github.com/" +:+ s +:+ ".git") ref)
  else if _is_git_url source then
    let '(s, ref) := split source in
    Some (cmd s ref)
  else None.

(** [_clone_source]: the cloned tree on success, [None] for [False]. *)
Definition _clone_source (W : World) (source : string) (dest : Fs.path)
    : outcome (option Fs.fs) :=
  match clone_command source dest with
  | None => Ok None
  | Some cmd =>
      match git W cmd with
      | GitExit rc tree => Ok (if rc =? 0 then Some tree else None)
      | GitTimeout | GitNotFound => Ok None
      | GitError e => Raise e
      end
  end.

Definition located (m : Marketplace) (stype sref : string) (dest : Fs.path)
    : Marketplace :=
  {| name := name m; owner := owner m; plugins := plugins m;
     description := description m; source_type := stype;
     source_ref := sref; local_path := Some dest |}.

(** [_register_marketplace]: record the marketplace in the index file. *)
Definition _register_marketplace `{PyLib} (global_dir : Fs.path)
    (m : Marketplace) : Fs.FsM unit :=
  fs! meta := Fs.query (_load_marketplace_meta global_dir) in
  match meta with
  | JObj md =>
      match Json.get_or "marketplaces" (JObj []) md with
      | JObj markets =>
          let markets :=
            Json.set (name m)
              (JObj [("source_type", JStr (source_type m));
                     ("source_ref", JStr (source_ref m))]) markets in
          _save_marketplace_meta global_dir
            (JObj (Json.set "marketplaces" (JObj markets) md))
      | JArr _ =>
          Fs.lift (Raise (Exn Py.TypeError
            "list indices must be integers or slices, not str"))
      | other =>
          Fs.lift (Raise (Exn Py.TypeError
            ("'" +:+ Json.type_name other
             +:+ "' object does not support item assignment")))
      end
  | other => Fs.lift (Json.no_attribute other "get")
  end.

(** [if dest.exists(): shutil.rmtree(dest)]. *)
Definition remove_existing (dest : Fs.path) : Fs.FsM unit :=
  fs! present := Fs.query (fun f => Fs.exists_ f dest) in
  if present then Fs.rmtree dest else Fs.ret tt.

(** The branch of [add_marketplace] for a GitHub reference or a git URL.
    The temporary directory exists only inside the call, so it is kept
    apart from the file system the call leaves behind. *)
Definition add_remote `{PyLib} (W : World) (global_dir : Fs.path)
    (source : string) : Fs.FsM (option Marketplace) :=
  let cache_dir := _marketplace_cache_dir global_dir in
  let tmp_path := Fs.joinpath (tmp W) "repo" in
  fs! cloned := Fs.lift (_clone_source W source tmp_path) in
  match cloned with
  | None => Fs.ret None
  | Some tree =>
      fs! mj := Fs.lift (_find_marketplace_json tree tmp_path) in
      match mj with
      | None => Fs.ret None
      | Some mj =>
          fs! parsed := Fs.lift (_parse_marketplace_json tree mj) in
          match parsed with
          | None => Fs.ret None
          | Some m =>
              let dest := Fs.joinpath cache_dir (name m) in
              fs! _ := remove_existing dest in
              fs! _ := Fs.copytree tree tmp_path dest in
              let m := located m
                         (if _is_github_ref source then "github" else "git")
                         source dest in
              fs! _ := _register_marketplace global_dir m in
              Fs.ret (Some m)
          end
      end
  end.

(** [add_marketplace]: add a marketplace from a local path, a GitHub
    reference or a git URL. *)
Definition add_marketplace `{PyLib} (W : World) (global_dir : Fs.path)
    (source : string) : Fs.FsM (option Marketplace) :=
  let cache_dir := _marketplace_cache_dir global_dir in
  fs! _ := Fs.mkdir_p cache_dir in
  let source := Py.strip source in
  let source_path := Fs.resolve (cwd W) source in
  fs! isdir := Fs.query (fun f => Fs.is_dir f source_path) in
  if isdir then
    fs! mj := Fs.query (fun f => _find_marketplace_json f source_path) in
    match mj with
    | None => Fs.ret None
    | Some mj =>
        fs! parsed := Fs.query (fun f => _parse_marketplace_json f mj) in
        match parsed with
        | None => Fs.ret None
        | Some m =>
            let dest := Fs.joinpath cache_dir (name m) in
            fs! _ := remove_existing dest in
            fs! _ := (fun f => Fs.copytree f source_path dest f) in
            let m := located m "local" (Fs.path_str source_path) dest in
            fs! _ := _register_marketplace global_dir m in
            Fs.ret (Some m)
        end
    end
  else
    fs! isfile := Fs.query (fun f => Fs.is_file f source_path) in
    if isfile && String.eqb (Fs.name source_path) "marketplace.json" then
      fs! parsed := Fs.query (fun f => _parse_marketplace_json f source_path) in
      match parsed with
      | None => Fs.ret None
      | Some m =>
          let dest := Fs.joinpath cache_dir (name m) in
          fs! _ := Fs.mkdir_p dest in
          let cp_dir := Fs.joinpath dest ".claude-plugin" in
          fs! _ := Fs.mkdir_p cp_dir in
          fs! _ := Fs.copy2 source_path (Fs.joinpath cp_dir "marketplace.json") in
          let m := located m "local"
                     (Fs.path_str (removelast source_path)) dest in
          fs! _ := _register_marketplace global_dir m in
          Fs.ret (Some m)
      end
    else if _is_github_ref source || _is_git_url source then
      add_remote W global_dir source
    else Fs.ret None.

End Marketplace.

(* ================================================================== *)
(** ** core/config.py *)
(* ================================================================== *)

Module Config.

Record Config := {
  model : string;
  hooks : Hooks.HooksConfig;
  enabled_plugins : gmap string bool;
  known_marketplaces : Json.dict;
}.

Definition with_model (c : Config) (m : string) : Config :=
  {| model := m; hooks := hooks c; enabled_plugins := enabled_plugins c;
     known_marketplaces := known_marketplaces c |}.

Definition with_hooks (c : Config) (h : Hooks.HooksConfig) : Config :=
  {| model := model c; hooks := h; enabled_plugins := enabled_plugins c;
     known_marketplaces := known_marketplaces c |}.

Definition with_enabled (c : Config) (e : gmap string bool) : Config :=
  {| model := model c; hooks := hooks c; enabled_plugins := e;
     known_marketplaces := known_marketplaces c |}.

Definition with_known (c : Config) (k : Json.dict) : Config :=
  {| model := model c; hooks := hooks c;
     enabled_plugins := enabled_plugins c; known_marketplaces := k |}.

(** The first command of the first rule whose matcher is found in the tool
    name, the search ignoring case; a rule without hooks is passed over. *)
Fixpoint first_command `{PyLib} (rules : list Hooks.HookRule)
    (tool_name : string) : outcome (option string) :=
  match rules with
  | [] => Ok None
  | rule :: rest =>
      match re_compile true (Hooks.matcher rule) with
      | None => Raise (Exn Py.ReError (re_error (Hooks.matcher rule)))
      | Some p =>
          match re_search p tool_name, Hooks.hooks rule with
          | true, hook :: _ =>
              let cmd := Hooks.command hook in
              Ok (Some (if String.eqb cmd "__confirm__" then "confirm"
                        else cmd))
          | _, _ => first_command rest tool_name
          end
      end
  end.

(** [Config.get_hook]: look up a legacy-style hook by its ['pre:tool'] or
    ['post:tool'] key. *)
Definition get_hook `{PyLib} (self : Config) (event : string)
    : outcome (option string) :=
  match Py.split_once ":" event with
  | None => Ok None
  | Some (prefix, tool_name) =>
      if String.eqb prefix "pre" then
        first_command (Hooks.PreToolUse (hooks self)) tool_name
      else if String.eqb prefix "post" then
        first_command (Hooks.PostToolUse (hooks self)) tool_name
      else Ok None
  end.

(** [enabled_plugins.update(d)] for a JSON object of booleans. *)
Definition update_enabled (e : gmap string bool) (d : Json.dict)
    : outcome (gmap string bool) :=
  fold_left
    (fun acc kv =>
       let* e := acc in
       match snd kv with
       | JBool b => Ok (<[fst kv := b]> e)
       | _ => Unmodelled
       end)
    d (Ok e).

(** A legacy hooks object as a [dict[str, str]]. *)
Definition legacy_of (d : Json.dict) : outcome (list (string * string)) :=
  Parser.map_outcome
    (fun kv => let* v := Hooks.str_field (snd kv) in Ok (fst kv, v)) d.

(** [_apply_settings]: apply a single settings file to the config; the
    value of [config] after the call. The file is parsed outside any [try].
    A file whose top-level value is not an object is outside the model. *)
Definition _apply_settings `{PyLib} (config : Config) (f : Fs.fs)
    (path : Fs.path) : outcome Config :=
  let* present := Fs.exists_ f path in
  if negb present then Ok config
  else
    let* text := Fs.read_text f path in
    match json_loads text with
    | None => Raise (Exn Py.JSONDecodeError (json_error text))
    | Some (JObj data) =>
        let* config :=
          match Json.get "model" data with
          | Some v => let* m := Hooks.str_field v in Ok (with_model config m)
          | None => Ok config
          end in
        let* config :=
          match Json.get "enabledPlugins" data with
          | Some (JObj d) =>
              let* e := update_enabled (enabled_plugins config) d in
              Ok (with_enabled config e)
          | _ => Ok config
          end in
        let config :=
          match Json.get "extraKnownMarketplaces" data with
          | Some (JObj d) =>
              with_known config (Json.update (known_marketplaces config) d)
          | _ => config
          end in
        let merge_in parsed :=
          let* h := parsed in
          Ok (with_hooks config (Hooks.merge (hooks config) h)) in
        if Parser.has_event_key data then
          merge_in (Parser.parse_hooks_config data)
        else
          match Json.get "hooks" data with
          | Some (JObj hooks_val) =>
              if Parser.has_event_key hooks_val
              then merge_in (Parser.parse_hooks_config hooks_val)
              else merge_in (let* legacy := legacy_of hooks_val in
                             Ok (Parser.convert_legacy_hooks legacy))
          | _ => Ok config
          end
    | Some _ => Unmodelled
    end.

(** [load_config]'s settings chain: the global file, then each project
    directory's [settings.json], then each [settings.local.json]. *)
Definition load_settings `{PyLib} (config : Config) (f : Fs.fs)
    (global_dir : Fs.path) (project_dirs : list Fs.path) : outcome Config :=
  let apply name acc dir :=
    let* c := acc in _apply_settings c f (Fs.joinpath dir name) in
  let* c := _apply_settings config f (Fs.joinpath global_dir "settings.json") in
  let* c := fold_left (apply "settings.json") project_dirs (Ok c) in
  fold_left (apply "settings.local.json") project_dirs (Ok c).

End Config.

(* ================================================================== *)
(** ** A small executable library instance *)
(* ================================================================== *)

(** [Mini.lib] implements the library interface on a fragment: regular
    expressions built from literal characters, escaped punctuation, [.],
    [|], [*], [+], [?], groups and plain character sets; JSON texts without
    string escapes and without fractions or exponents. Outside the fragment
    it answers [None], so it is only run on inputs inside it. *)
Module Mini.

Inductive re :=
| Void
| Eps
| Chr (c : ascii)
| Dot                       (* any character but a newline *)
| Any
| Cls (chars : string)
| Seq (a b : re)
| Alt (a b : re)
| Star (a : re).

Fixpoint nullable (r : re) : bool :=
  match r with
  | Eps | Star _ => true
  | Seq a b => nullable a && nullable b
  | Alt a b => nullable a || nullable b
  | _ => false
  end.

Definition same (ci : bool) (c d : ascii) : bool :=
  if ci then Ascii.eqb (Py.lower_char c) (Py.lower_char d)
  else Ascii.eqb c d.

Fixpoint in_set (ci : bool) (c : ascii) (chars : string) : bool :=
  match chars with
  | "" => false
  | String d rest => same ci c d || in_set ci c rest
  end.

Definition of_bool (b : bool) : re := if b then Eps else Void.

(** The derivative of [r] by the character [c]. *)
Fixpoint deriv (ci : bool) (c : ascii) (r : re) : re :=
  match r with
  | Void | Eps => Void
  | Chr d => of_bool (same ci c d)
  | Dot => of_bool (negb (Ascii.eqb c (ascii_of_nat 10)))
  | Any => Eps
  | Cls chars => of_bool (in_set ci c chars)
  | Seq a b =>
      if nullable a then Alt (Seq (deriv ci c a) b) (deriv ci c b)
      else Seq (deriv ci c a) b
  | Alt a b => Alt (deriv ci c a) (deriv ci c b)
  | Star a => Seq (deriv ci c a) (Star a)
  end.

Fixpoint fullmatch (ci : bool) (r : re) (s : string) : bool :=
  match s with
  | "" => nullable r
  | String c rest => fullmatch ci (deriv ci c r) rest
  end.

(** [pattern.search(s) is not None]: some substring matches. *)
Definition search (p : bool * re) (s : string) : bool :=
  fullmatch (fst p) (Seq (Star Any) (Seq (snd p) (Star Any))) s.

Inductive level := LAlt | LSeq | LAtom.

Definition is_quantifier (c : ascii) : bool := Py.mem_char c "*+?".

(** The repetition operators after an atom; a second operator is accepted
    only as the lazy mark [?]. *)
Definition postfix (r : re) (s : string) : option (re * string) :=
  match s with
  | String q rest =>
      if is_quantifier q then
        let r' := if Ascii.eqb q "*" then Star r
                  else if Ascii.eqb q "+" then Seq r (Star r)
                  else Alt r Eps in
        match rest with
        | String q2 rest2 =>
            if Ascii.eqb q2 "?" then Some (r', rest2)
            else if is_quantifier q2 then None
            else Some (r', rest)
        | "" => Some (r', rest)
        end
      else Some (r, s)
  | "" => Some (r, s)
  end.

(** The characters of a set up to the closing bracket. *)
Fixpoint set_body (s : string) : option (string * string) :=
  match s with
  | "" => None
  | String c rest =>
      if Ascii.eqb c "]" then Some ("", rest)
      else if Py.mem_char c "\^-[" then None
      else match set_body rest with
           | Some (cs, rest') => Some (String c cs, rest')
           | None => None
           end
  end.

Fixpoint parse (fuel : nat) (l : level) (s : string) : option (re * string) :=
  match fuel with
  | O => None
  | S n =>
      match l with
      | LAlt =>
          match parse n LSeq s with
          | Some (a, String "|" rest) =>
              match parse n LAlt rest with
              | Some (b, rest') => Some (Alt a b, rest')
              | None => None
              end
          | other => other
          end
      | LSeq =>
          match s with
          | "" | String "|" _ | String ")" _ => Some (Eps, s)
          | _ =>
              match parse n LAtom s with
              | Some (a, rest) =>
                  match postfix a rest with
                  | Some (a', rest') =>
                      match parse n LSeq rest' with
                      | Some (b, rest'') => Some (Seq a' b, rest'')
                      | None => None
                      end
                  | None => None
                  end
              | None => None
              end
          end
      | LAtom =>
          match s with
          | "" => None
          | String "(" rest =>
              match parse n LAlt rest with
              | Some (a, String ")" rest') => Some (a, rest')
              | _ => None
              end
          | String "[" rest =>
              match set_body rest with
              | Some (String c cs, rest') => Some (Cls (String c cs), rest')
              | _ => None
              end
          | String "\" (String c rest) =>
              if Py.is_alnum c then None else Some (Chr c, rest)
          | String "." rest => Some (Dot, rest)
          | String c rest =>
              if Py.mem_char c "*+?{}^$\" then None else Some (Chr c, rest)
          end
      end
  end.

Definition compile (ci : bool) (pat : string) : option (bool * re) :=
  match parse (3 * S (String.length pat)) LAlt pat with
  | Some (r, "") => Some (ci, r)
  | _ => None
  end.

(** *** JSON texts *)

Definition skip_ws (s : string) : string :=
  Py.lstrip_by (fun c => Py.mem_char c " " || Nat.eqb (Py.code c) 9
                         || Nat.eqb (Py.code c) 10 || Nat.eqb (Py.code c) 13) s.

(** The characters of a string literal up to the closing quote. *)
Fixpoint string_body (s : string) : option (string * string) :=
  match s with
  | "" => None
  | String c rest =>
      if Ascii.eqb c Py.dquote then Some ("", rest)
      else if Ascii.eqb c "\" || (Py.code c <? 32)%nat then None
      else match string_body rest with
           | Some (cs, rest') => Some (String c cs, rest')
           | None => None
           end
  end.

Fixpoint span (p : ascii -> bool) (s : string) : string * string :=
  match s with
  | "" => ("", "")
  | String c rest =>
      if p c then let '(a, b) := span p rest in (String c a, b)
      else ("", s)
  end.

Definition number (s : string) : option (json * string) :=
  let '(sign, rest) :=
    match s with
    | String "-" r => ("-", r)
    | _ => ("", s)
    end in
  let '(digits, rest') := span Py.is_digit rest in
  match digits, rest' with
  | "", _ => None
  | String "0" (String _ _), _ => None
  | _, String c _ =>
      if Py.mem_char c ".eE" then None
      else match NilZero.int_of_string (sign +:+ digits) with
           | Some i => Some (JNum (Z.of_int i), rest')
           | None => None
           end
  | _, "" =>
      match NilZero.int_of_string (sign +:+ digits) with
      | Some i => Some (JNum (Z.of_int i), rest')
      | None => None
      end
  end.

Definition keyword (word : string) (v : json) (s : string)
    : option (json * string) :=
  if String.prefix word s then Some (v, Py.drop (String.length word) s)
  else None.

Fixpoint value (fuel : nat) (s : string) : option (json * string) :=
  match fuel with
  | O => None
  | S n =>
      match skip_ws s with
      | String "{" rest =>
          match skip_ws rest with
          | String "}" rest' => Some (JObj [], rest')
          | _ => members n rest []
          end
      | String "[" rest =>
          match skip_ws rest with
          | String "]" rest' => Some (JArr [], rest')
          | _ => elements n rest []
          end
      | String "t" _ as w => keyword "true" (JBool true) w
      | String "f" _ as w => keyword "false" (JBool false) w
      | String "n" _ as w => keyword "null" JNull w
      | String c rest as w =>
          if Ascii.eqb c Py.dquote then
            match string_body rest with
            | Some (str, rest') => Some (JStr str, rest')
            | None => None
            end
          else number w
      | "" => None
      end
  end
with elements (fuel : nat) (s : string) (acc : list json)
    : option (json * string) :=
  match fuel with
  | O => None
  | S n =>
      match value n s with
      | Some (v, rest) =>
          match skip_ws rest with
          | String "," rest' => elements n rest' (acc ++ [v])
          | String "]" rest' => Some (JArr (acc ++ [v]), rest')
          | _ => None
          end
      | None => None
      end
  end
with members (fuel : nat) (s : string) (acc : Json.dict)
    : option (json * string) :=
  match fuel with
  | O => None
  | S n =>
      match skip_ws s with
      | String c rest =>
          if negb (Ascii.eqb c Py.dquote) then None else
          match string_body rest with
          | Some (key, rest') =>
              match skip_ws rest' with
              | String ":" rest'' =>
                  match value n rest'' with
                  | Some (v, rest3) =>
                      match skip_ws rest3 with
                      | String "," rest4 => members n rest4 (Json.set key v acc)
                      | String "}" rest4 =>
                          Some (JObj (Json.set key v acc), rest4)
                      | _ => None
                      end
                  | None => None
                  end
              | _ => None
              end
          | None => None
          end
      | _ => None
      end
  end.

Definition loads (text : string) : option json :=
  match value (2 * S (String.length text)) text with
  | Some (v, rest) => if String.eqb (skip_ws rest) "" then Some v else None
  | None => None
  end.

Definition decimal (z : Z) : string := NilZero.string_of_int (Z.to_int z).

Definition quoted (q : ascii) (s : string) : string :=
  String q (s +:+ String q "").

Fixpoint spaces (n : nat) : string :=
  match n with O => "" | S k => String " " (spaces k) end.

(** [json.dumps(v, indent=2)] at nesting depth [depth]. *)
Fixpoint dumps_at (depth : nat) (v : json) : string :=
  let nl d := Middleware.newline +:+ spaces (2 * d) in
  match v with
  | JNull => "null"
  | JBool b => if b then "true" else "false"
  | JNum z => decimal z
  | JStr s => quoted Py.dquote s
  | JArr [] => "[]"
  | JArr l =>
      "[" +:+ nl (S depth)
      +:+ Py.join ("," +:+ nl (S depth)) (map (dumps_at (S depth)) l)
      +:+ nl depth +:+ "]"
  | JObj [] => "{}"
  | JObj d =>
      "{" +:+ nl (S depth)
      +:+ Py.join ("," +:+ nl (S depth))
            (map (fun kv => quoted Py.dquote (fst kv) +:+ ": "
                            +:+ dumps_at (S depth) (snd kv)) d)
      +:+ nl depth +:+ "}"
  end.

(** [repr(v)]. *)
Fixpoint repr (v : json) : string :=
  match v with
  | JNull => "None"
  | JBool b => if b then "True" else "False"
  | JNum z => decimal z
  | JStr s => quoted "'" s
  | JArr l => "[" +:+ Py.join ", " (map repr l) +:+ "]"
  | JObj d =>
      "{" +:+ Py.join ", "
                (map (fun kv => quoted "'" (fst kv) +:+ ": " +:+ repr (snd kv)) d)
      +:+ "}"
  end.

Definition lib : PyLib := {|
  pattern := bool * re;
  re_compile := compile;
  re_search := search;
  re_error := fun _ => "invalid pattern";
  json_loads := loads;
  json_error := fun _ => "Expecting value";
  json_dumps := dumps_at 0;
  py_repr := repr;
|}.

End Mini.

(* ================================================================== *)
(** * Properties *)
(* ================================================================== *)

(** JSON text written with single quotes, for readability of the concrete
    inputs below: every ['] stands for a double quote. *)
Definition json_text (s : string) : string :=
  Py.replace s "'" (String Py.dquote "").

(* ------------------------------------------------------------------ *)
(** ** Merging hook registries (hooks/models.py) *)

Section Merge.
Import Hooks.

Lemma merge_fields (A B : HooksConfig) :
  merge A B =
  {| PreToolUse := PreToolUse A ++ PreToolUse B;
     PostToolUse := PostToolUse A ++ PostToolUse B;
     Stop := Stop A ++ Stop B;
     SubagentStop := SubagentStop A ++ SubagentStop B;
     SessionStart := SessionStart A ++ SessionStart B;
     SessionEnd := SessionEnd A ++ SessionEnd B;
     UserPromptSubmit := UserPromptSubmit A ++ UserPromptSubmit B;
     PreCompact := PreCompact A ++ PreCompact B;
     Notification := Notification A ++ Notification B |}.
Proof. destruct A, B. reflexivity. Qed.

Lemma get_rules_merge (A B : HooksConfig) (event : string) :
  get_rules (merge A B) event = get_rules A event ++ get_rules B event.
Proof.
  rewrite merge_fields. unfold get_rules. cbn [PreToolUse PostToolUse Stop
    SubagentStop SessionStart SessionEnd UserPromptSubmit PreCompact
    Notification].
  repeat (destruct (String.eqb event _); [reflexivity|]).
  reflexivity.
Qed.

Lemma merge_assoc (A B C : HooksConfig) :
  merge (merge A B) C = merge A (merge B C).
Proof.
  rewrite !merge_fields. cbn [PreToolUse PostToolUse Stop SubagentStop
    SessionStart SessionEnd UserPromptSubmit PreCompact Notification].
  by rewrite <- !app_assoc.
Qed.

(** C3. After [merge(A, B)] the rule list of every event is the list of [A]
    followed by the list of [B], so its length is the sum of the two
    lengths and no rule is replaced or dropped; and merging three scopes
    gives the same registry whichever way the merges are grouped. The
    statement holds for every event name, the nine lifecycle events
    among them. *)
Theorem merge_is_concatenation (A B C : HooksConfig) (event : string) :
  get_rules (merge A B) event = get_rules A event ++ get_rules B event
  /\ List.length (get_rules (merge A B) event)
     = (List.length (get_rules A event) + List.length (get_rules B event))%nat
  /\ merge (merge A B) C = merge A (merge B C).
Proof.
  split; [apply get_rules_merge|].
  split; [|apply merge_assoc].
  rewrite get_rules_merge. apply length_app.
Qed.

(** Each of the nine event names selects a field of its own. *)
Example get_rules_selects (r : HookRule) :
  map (get_rules (set_rules empty "Stop" [r])) HOOK_EVENTS
  = [[]; []; [r]; []; []; []; []; []; []].
Proof. reflexivity. Qed.

End Merge.

(* ------------------------------------------------------------------ *)
(** ** Which plugins are enabled (plugins/lifecycle.py) *)

Section Enabled.
Import Lifecycle.

(** C10. The enabled check returns the value under ["name@marketplace"]
    when a marketplace is recorded and that key is present, whatever the
    bare key says; otherwise the value under the bare ["name"] key when it
    is present; otherwise [true]. *)
Theorem is_plugin_enabled_precedence (enabled_plugins : gmap string bool)
    (name marketplace : string) :
  (forall v, marketplace <> "" ->
     enabled_plugins !! (name +:+ "@" +:+ marketplace) = Some v ->
     _is_plugin_enabled enabled_plugins name marketplace = v)
  /\ (forall v,
        (marketplace <> "" ->
         enabled_plugins !! (name +:+ "@" +:+ marketplace) = None) ->
        enabled_plugins !! name = Some v ->
        _is_plugin_enabled enabled_plugins name marketplace = v)
  /\ ((marketplace <> "" ->
       enabled_plugins !! (name +:+ "@" +:+ marketplace) = None) ->
      enabled_plugins !! name = None ->
      _is_plugin_enabled enabled_plugins name marketplace = true).
Proof.
  unfold _is_plugin_enabled.
  destruct (String.eqb_spec marketplace "") as [->|Hne].
  - split; [congruence|]. split.
    + intros v _ ->. reflexivity.
    + intros _ ->. reflexivity.
  - split; [intros v _ ->; reflexivity|]. split.
    + intros v Hq ->. by rewrite (Hq Hne).
    + intros Hq ->. by rewrite (Hq Hne).
Qed.

(** The qualified key wins over the bare key when both are set. *)
Lemma is_plugin_enabled_precedence_witness :
  _is_plugin_enabled (<["fmt@acme" := false]> (<["fmt" := true]> ∅))
    "fmt" "acme" = false.
Proof.
  apply (proj1 (is_plugin_enabled_precedence _ "fmt" "acme") false).
  - discriminate.
  - reflexivity.
Defined.

End Enabled.

(* ------------------------------------------------------------------ *)
(** ** When a rule fires (hooks/models.py) *)

Section Matching.
Import Hooks.

(** The firing condition as the specification words it: the regular
    expression is searched case-insensitively. *)
Definition fires_ignoring_case `{PyLib} (rule : HookRule) (value : string)
    : Prop :=
  matcher rule = "*"
  \/ (exists p, re_compile true (matcher rule) = Some p
                /\ re_search p value = true)
  \/ (re_compile true (matcher rule) = None /\ matcher rule = value).

(** The firing condition with the pattern compiled without flags. *)
Definition fires_case_sensitive `{PyLib} (rule : HookRule) (value : string)
    : Prop :=
  matcher rule = "*"
  \/ (exists p, re_compile false (matcher rule) = Some p
                /\ re_search p value = true)
  \/ (re_compile false (matcher rule) = None /\ matcher rule = value).

(** What [HookRule.matches] computes: a rule fires if and only if its
    matcher is ["*"], or the matcher compiles, without flags, and
    search-matches the value, or the matcher fails to compile and equals
    the value exactly. *)
Lemma matches_iff_fires `{PyLib} (rule : HookRule) (value : string) :
  matches rule value = true <-> fires_case_sensitive rule value.
Proof.
  unfold matches, fires_case_sensitive.
  destruct (String.eqb_spec (matcher rule) "*") as [Hstar|Hstar].
  { split; [by left | done]. }
  destruct (re_compile false (matcher rule)) as [p|] eqn:Hc.
  - split.
    + intros Hs. right; left. by exists p.
    + intros [?|[(q & Hq & Hs)|[? _]]]; [done| |done].
      by injection Hq as ->.
  - rewrite String.eqb_eq. split.
    + intros ->. by right; right.
    + intros [?|[(q & Hq & _)|[_ ?]]]; done.
Qed.

(** C2, at the failing input. The legacy configuration
    [{"pre:bash": "confirm"}] gives a rule with the matcher [bash]. A
    case-insensitive search finds it in the tool name [Bash], and
    [Config.get_hook], which searches with [re.IGNORECASE], reports the
    confirm hook for ["pre:Bash"]; but [HookRule.matches] compiles the
    matcher without flags, the rule does not fire, and the [PreToolUse]
    dispatch for [Bash] returns the default outcome without asking. *)
Theorem lowercase_matcher_does_not_fire :
  let rule := {| matcher := "bash";
                 hooks := [mkHookDef "command" "__confirm__" ""] |} in
  let registry := Parser.convert_legacy_hooks [("pre:bash", "confirm")] in
  let config := {| Config.model := ""; Config.hooks := registry;
                   Config.enabled_plugins := ∅;
                   Config.known_marketplaces := [] |} in
  PreToolUse registry = [rule]
  /\ @fires_ignoring_case Mini.lib rule "Bash"
  /\ @Config.get_hook Mini.lib config "pre:Bash" = Ok (Some "confirm")
  /\ @matches Mini.lib rule "Bash" = false
  /\ ~ (@matches Mini.lib rule "Bash" = true
        <-> @fires_ignoring_case Mini.lib rule "Bash")
  /\ forall W tr,
       @execute_hooks Mini.lib W registry "PreToolUse" "Bash" None tr
       = Ok (default_result, tr).
Proof.
  intros rule registry config.
  assert (Hfires : @fires_ignoring_case Mini.lib rule "Bash").
  { right; left. eexists. split; reflexivity. }
  split; [reflexivity|]. split; [exact Hfires|].
  split; [reflexivity|]. split; [reflexivity|]. split.
  - intros [_ Hm]. specialize (Hm Hfires). discriminate Hm.
  - intros W tr. reflexivity.
Qed.

(** The matcher ["*"] matches every string, the empty one included. *)
Lemma matches_wildcard `{PyLib} (hs : list HookDef) (value : string) :
  matches {| matcher := "*"; hooks := hs |} value = true.
Proof. reflexivity. Qed.

(** The cases of [TestHookRule], run on the small library. *)
Example matches_examples :
  let m pat v := @matches Mini.lib {| matcher := pat; hooks := [] |} v in
  m "*" "" = true /\ m "Write|Edit" "Edit" = true
  /\ m "Write|Edit" "Read" = false /\ m "Bash" "Bash" = true
  /\ m "[invalid" "[invalid" = true /\ m "[invalid" "something" = false.
Proof. repeat split; reflexivity. Qed.

End Matching.

(* ------------------------------------------------------------------ *)
(** ** The execution engine (hooks/engine.py) *)

Section Engine.
Import Hooks Sys.
Context `{PyLib} (W : World).

(** The hooks of the rules that fire, in the order they run. *)
Definition firing (config : HooksConfig) (event match_value : string)
    : list HookDef :=
  flat_map hooks
    (List.filter (fun r => matches r match_value) (get_rules config event)).

(** What a hook contributes without running a subprocess. *)
Definition without_output (result : HookResult) (hook : HookDef)
    : HookResult :=
  if String.eqb (type hook) "command" then
    if String.eqb (command hook) "__confirm__"
    then with_permission result "ask" else result
  else if String.eqb (type hook) "prompt"
          && negb (String.eqb (prompt hook) "")
  then append_message result (prompt hook)
  else result.

(** A hook that is not a command, or is the confirm sentinel. *)
Definition spawns_nothing (hook : HookDef) : bool :=
  negb (String.eqb (type hook) "command")
  || String.eqb (command hook) "__confirm__".


(** The subprocess timed out or could not be spawned. *)
Definition failed (o : proc_outcome) : bool :=
  match o with Completed _ _ _ => false | _ => true end.

Lemma for_each_app {A S} (xs ys : list A) (body : A -> S -> M S) (acc : S)
    (tr : trace) :
  for_each (xs ++ ys) body acc tr
  = bind (for_each xs body acc) (for_each ys body) tr.
Proof.
  revert acc tr. induction xs as [|x xs IH]; intros acc tr; [reflexivity|].
  cbn [for_each app]. unfold bind.
  destruct (body x acc tr) as [[a tr']| |]; [|reflexivity..].
  rewrite IH. reflexivity.
Qed.

Lemma execute_hooks_firing (config : HooksConfig) (event mv : string)
    (vars : option variables) (tr : trace) :
  execute_hooks W config event mv vars tr
  = for_each (firing config event mv) (run_hook W event vars)
      default_result tr.
Proof.
  unfold execute_hooks, firing.
  generalize default_result. revert tr.
  induction (get_rules config event) as [|r rs IH]; intros tr acc;
    [reflexivity|].
  cbn [for_each List.filter flat_map]. unfold bind at 1, run_rule at 1.
  destruct (matches r mv); cbn [negb].
  - cbn [flat_map]. rewrite for_each_app. unfold bind.
    destruct (for_each (hooks r) _ acc tr) as [[a tr']| |]; [|reflexivity..].
    apply IH.
  - apply IH.
Qed.

Lemma run_hook_spawns_nothing (event : string) (vars : option variables)
    (hook : HookDef) (result : HookResult) (tr : trace) :
  spawns_nothing hook = true ->
  run_hook W event vars hook result tr = Ok (without_output result hook, tr).
Proof.
  unfold spawns_nothing, run_hook, without_output.
  destruct (String.eqb (type hook) "command"); cbn [negb orb].
  - intros ->. reflexivity.
  - intros _. by destruct (_ && _).
Qed.

Lemma run_hook_failed (event : string) (vars : option variables)
    (hook : HookDef) (result : HookResult) (tr : trace) :
  spawns_nothing hook = false ->
  failed (subprocess_run W tr (substituted_command hook vars) (timeout hook))
    = true ->
  run_hook W event vars hook result tr
  = Ok (result, tr ++ [EvRun (substituted_command hook vars) (timeout hook)]).
Proof.
  unfold spawns_nothing, run_hook.
  destruct (String.eqb (type hook) "command"); [|done].
  cbn [negb orb]. intros -> Hfail.
  unfold run_command_hook, bind, history, emit.
  destruct (subprocess_run W tr _ _); [done|reflexivity..].
Qed.

(** Events that are neither a handler call nor anything but a spawn. *)
Lemma run_hook_trace (event : string) (vars : option variables)
    (hook : HookDef) (result r' : HookResult) (tr tr' : trace) :
  run_hook W event vars hook result tr = Ok (r', tr') ->
  exists evs, tr' = tr ++ evs /\ handler_calls evs = [].
Proof.
  destruct (spawns_nothing hook) eqn:Hs.
  - rewrite run_hook_spawns_nothing by done. intros [= _ <-].
    exists []. by rewrite app_nil_r.
  - unfold spawns_nothing, run_hook in *.
    destruct (String.eqb (type hook) "command"); [|done].
    cbn [negb orb] in Hs. rewrite Hs.
    unfold run_command_hook, bind, history, emit, lift.
    intros Hrun.
    exists [EvRun (substituted_command hook vars) (timeout hook)].
    split; [|reflexivity].
    destruct (subprocess_run W tr _ _); cbn in Hrun;
      [destruct (_parse_hook_output _ _ _); by inversion Hrun
      | by inversion Hrun ..].
Qed.

Lemma for_each_run_hook_trace (event : string) (vars : option variables)
    (hs : list HookDef) (result r' : HookResult) (tr tr' : trace) :
  for_each hs (run_hook W event vars) result tr = Ok (r', tr') ->
  exists evs, tr' = tr ++ evs /\ handler_calls evs = [].
Proof.
  revert result tr. induction hs as [|h hs IH]; intros result tr.
  - intros [= _ <-]. exists []. by rewrite app_nil_r.
  - cbn [for_each]. unfold bind at 1.
    destruct (run_hook W event vars h result tr) as [[a tr1]| |] eqn:Hh;
      [|done..].
    intros Hrest. apply run_hook_trace in Hh as (e1 & -> & He1).
    apply IH in Hrest as (e2 & -> & He2).
    exists (e1 ++ e2). rewrite app_assoc. split; [done|].
    unfold handler_calls in *. by rewrite omap_app, He1, He2.
Qed.

(** A dispatch calls no handler. *)
Lemma execute_hooks_trace (config : HooksConfig) (event mv : string)
    (vars : option variables) (r : HookResult) (tr tr' : trace) :
  execute_hooks W config event mv vars tr = Ok (r, tr') ->
  exists evs, tr' = tr ++ evs /\ handler_calls evs = [].
Proof. rewrite execute_hooks_firing. apply for_each_run_hook_trace. Qed.




Lemma without_output_spawning (result : HookResult) (hook : HookDef) :
  spawns_nothing hook = false -> without_output result hook = result.
Proof.
  unfold spawns_nothing, without_output.
  destruct (String.eqb (type hook) "command"); [|done].
  cbn [negb orb]. by intros ->.
Qed.

Lemma for_each_all_failed (event : string) (vars : option variables)
    (hs : list HookDef) (result : HookResult) (tr : trace) :
  (forall tr cmd t, failed (subprocess_run W tr cmd t) = true) ->
  exists tr',
    for_each hs (run_hook W event vars) result tr
    = Ok (fold_left without_output hs result, tr').
Proof.
  intros Hfail. revert result tr.
  induction hs as [|h hs IH]; intros result tr; [by exists tr|].
  cbn [for_each fold_left]. unfold bind.
  destruct (spawns_nothing h) eqn:Hs.
  - rewrite run_hook_spawns_nothing by done. apply IH.
  - rewrite run_hook_failed by done.
    rewrite without_output_spawning by done. apply IH.
Qed.

(** C4, amended. A command hook whose subprocess times out or fails to
    spawn does not make the engine raise, and it leaves the outcome as it
    was: no permission change and nothing appended to [messages]; the
    error text is returned by [run_command_hook] in the place of stderr,
    which the engine reads only for exit code 2. When every spawn fails,
    the whole dispatch returns, and its outcome is what the confirm and
    prompt hooks alone contribute. *)
Theorem failed_hook_contributes_nothing (config : HooksConfig)
    (event mv : string) (vars : option variables) (hook : HookDef)
    (result : HookResult) (tr : trace) :
  (spawns_nothing hook = false ->
   failed (subprocess_run W tr (substituted_command hook vars) (timeout hook))
     = true ->
   run_hook W event vars hook result tr
   = Ok (result, tr ++ [EvRun (substituted_command hook vars) (timeout hook)]))
  /\ ((forall tr cmd t, failed (subprocess_run W tr cmd t) = true) ->
      exists tr',
        execute_hooks W config event mv vars tr
        = Ok (fold_left without_output (firing config event mv)
                default_result, tr')).
Proof.
  split; [apply run_hook_failed|].
  intros Hfail. rewrite execute_hooks_firing. by apply for_each_all_failed.
Qed.


End Engine.

Section EngineInstances.
Import Hooks Sys.

(** A world in which every hook command runs into its timeout. *)
Definition timeout_world : World :=
  {| subprocess_run := fun _ _ _ => TimeoutExpired;
     pt_prompt := fun _ _ => "" |}.


Definition sleep_hook : HookDef :=
  {| type := "command"; command := "sleep 60"; prompt := ""; timeout := 1 |}.


(** C4, as stated, fails: the dispatch of [test_hook_timeout_does_not_crash]
    returns, but the text of the timeout is not among its messages. *)
Lemma timeout_text_counterexample :
  let config :=
    set_rules empty "PostToolUse" [{| matcher := "*"; hooks := [sleep_hook] |}] in
  exists r tr,
    @execute_hooks Mini.lib timeout_world config "PostToolUse" "Write" None []
      = Ok (r, tr)
    /\ tr = [EvRun "sleep 60" 1]
    /\ permission r = permission default_result
    /\ messages r <> messages default_result ++ ["hook timed out"].
Proof.
  intros config. exists default_result, [EvRun "sleep 60" 1].
  repeat split; discriminate.
Qed.

Lemma failed_hook_contributes_nothing_witness :
  @run_hook Mini.lib timeout_world "PostToolUse" None sleep_hook
    default_result []
  = Ok (default_result, [EvRun "sleep 60" 1])
  /\ exists tr',
       @execute_hooks Mini.lib timeout_world
         (set_rules empty "PostToolUse"
            [{| matcher := "*"; hooks := [sleep_hook] |}])
         "PostToolUse" "Write" None []
       = Ok (default_result, tr').
Proof.
  split.
  - apply (proj1 (@failed_hook_contributes_nothing Mini.lib timeout_world
                    empty "PostToolUse" "Write" None sleep_hook
                    default_result [])); reflexivity.
  - apply (proj2 (@failed_hook_contributes_nothing Mini.lib timeout_world
                    (set_rules empty "PostToolUse"
                       [{| matcher := "*"; hooks := [sleep_hook] |}])
                    "PostToolUse" "Write" None sleep_hook default_result [])).
    intros; reflexivity.
Defined.



End EngineInstances.

(* ------------------------------------------------------------------ *)
(** ** The tool-call middleware (hooks/middleware.py) *)

Section MiddlewareProps.
Import Hooks Sys Middleware.
Context `{PyLib} (W : World) (config : HooksConfig) (request : ToolCall)
        (handler : Handler).

(** [request.tool_call.get("args", {})]. *)
Definition effective_args (r : ToolCall) : Json.dict :=
  match tc_args r with Some a => a | None => [] end.

Definition call_vars : option variables :=
  Some [("TOOL_NAME", tc_name request);
        ("FILE", py_str (py_or (Json.get_or "file_path" (JStr "")
                                  (effective_args request))
                               (Json.get_or "path" (JStr "")
                                  (effective_args request))))].

Definition pre_dispatch : M HookResult :=
  execute_hooks W config "PreToolUse" (tc_name request) call_vars.



(** What is printed before the user is asked. *)
Definition preview : event :=
  EvPrint (newline +:+ "[bold yellow]Tool:[/bold yellow] "
           +:+ tc_name request +:+ newline +:+ "[dim]"
           +:+ Py.take 200 (py_str (JObj (effective_args request)))
           +:+ "[/dim]").

(** The answer the user gives when asked after the dispatch left [tr1]. *)
Definition answer (tr1 : trace) : string :=
  pt_prompt W (tr1 ++ [preview]) "Allow? [y/N] ".



Lemma handler_calls_app (a b : trace) :
  handler_calls (a ++ b) = handler_calls a ++ handler_calls b.
Proof. apply omap_app. Qed.


End MiddlewareProps.

Section MiddlewareInstances.
Import Hooks Sys Middleware.


Definition bash_call : ToolCall :=
  {| tc_name := "Bash"; tc_id := "456";
     tc_args := Some [("command", JStr "echo hi")] |}.


Definition done_handler : Handler := fun _ _ => Ok (Command (JStr "done")).



End MiddlewareInstances.

(* ------------------------------------------------------------------ *)
(** ** Malformed JSON at the parse boundaries *)

Section ParseBoundary.
Import Fs.
Context `{PyLib}.

Lemma try_load_malformed (f : fs) (p : path) (text : string) :
  f p = File text -> json_loads text = None -> Loader.try_load f p = None.
Proof. intros Hf Hj. unfold Loader.try_load, read_text. by rewrite Hf. Qed.

(** A manifest that does not parse is treated as absent. *)
Lemma parse_manifest_malformed (f : fs) (p : path) (text : string) :
  f p = File text -> json_loads text = None ->
  Loader._parse_manifest f p = Ok None.
Proof.
  intros Hf Hj. unfold Loader._parse_manifest.
  rewrite (try_load_malformed f p text Hf Hj).
  unfold exists_. by rewrite Hf.
Qed.

(** A marketplace descriptor that does not parse is treated as absent. *)
Lemma parse_marketplace_malformed (f : fs) (p : path) (text : string) :
  f p = File text -> json_loads text = None ->
  Marketplace._parse_marketplace_json f p = Ok None.
Proof.
  intros Hf Hj. unfold Marketplace._parse_marketplace_json.
  rewrite (try_load_malformed f p text Hf Hj).
  unfold exists_. by rewrite Hf.
Qed.

(** A settings file that does not parse makes [_apply_settings] raise. *)
Lemma apply_settings_malformed (config : Config.Config) (f : fs) (p : path)
    (text : string) :
  f p = File text -> json_loads text = None ->
  Config._apply_settings config f p
  = Raise (Exn Py.JSONDecodeError (json_error text)).
Proof.
  intros Hf Hj. unfold Config._apply_settings, exists_, read_text.
  rewrite Hf. cbn [Py.bind negb]. by rewrite Hj.
Qed.

(** The exception leaves [load_config]'s settings chain as well. *)
Lemma load_settings_malformed_global (config : Config.Config) (f : fs)
    (global_dir : path) (project_dirs : list path) (text : string) :
  f (joinpath global_dir "settings.json") = File text ->
  json_loads text = None ->
  Config.load_settings config f global_dir project_dirs
  = Raise (Exn Py.JSONDecodeError (json_error text)).
Proof.
  intros Hf Hj. unfold Config.load_settings.
  by rewrite (apply_settings_malformed _ _ _ text Hf Hj).
Qed.

End ParseBoundary.

Section ParseBoundaryInstances.
Import Fs.

Definition default_config : Config.Config :=
  {| Config.model := "anthropic:claude-sonnet-4-5-20250929";
     Config.hooks := Hooks.empty;
     Config.enabled_plugins := ∅;
     Config.known_marketplaces := [] |}.

(** A home directory whose [settings.json] holds the single character [{]. *)
Definition broken_settings_fs : fs :=
  fun p =>
    if path_eqb p ["home"; ".langcode"; "settings.json"] then File "{"
    else if is_prefix p ["home"; ".langcode"] then Dir
    else Absent.

(** C5, at the failing input. With a settings file that is not valid JSON
    [_apply_settings] raises [json.JSONDecodeError], and so does the
    settings chain of [load_config]; the same text in a plugin manifest or
    a marketplace descriptor is treated as absent configuration. *)
Theorem apply_settings_malformed_raises :
  let settings := ["home"; ".langcode"; "settings.json"] in
  (exists msg,
     @Config._apply_settings Mini.lib default_config broken_settings_fs settings
     = Raise (Exn Py.JSONDecodeError msg))
  /\ (exists msg,
        @Config.load_settings Mini.lib default_config broken_settings_fs
          ["home"; ".langcode"] []
        = Raise (Exn Py.JSONDecodeError msg))
  /\ @Loader._parse_manifest Mini.lib broken_settings_fs settings = Ok None
  /\ @Marketplace._parse_marketplace_json Mini.lib broken_settings_fs settings
     = Ok None.
Proof.
  intros settings. split; [|split; [|split]].
  - eexists. by apply (@apply_settings_malformed Mini.lib _ _ _ "{").
  - eexists. by apply (@load_settings_malformed_global Mini.lib _ _ _ _ "{").
  - by apply (@parse_manifest_malformed Mini.lib _ _ "{").
  - by apply (@parse_marketplace_malformed Mini.lib _ _ "{").
Qed.

End ParseBoundaryInstances.

(* ------------------------------------------------------------------ *)
(** ** Dictionaries *)

Section Dicts.
Import Json.

Lemma get_set (k k' : string) (v : json) (d : dict) :
  get k (set k' v d) = if String.eqb k k' then Some v else get k d.
Proof.
  induction d as [|[k0 v0] rest IH]; cbn [set get]; [done|].
  destruct (String.eqb_spec k' k0) as [->|Hne]; cbn [get].
  - by destruct (String.eqb k k0).
  - rewrite IH. destruct (String.eqb_spec k k0) as [->|]; [|done].
    destruct (String.eqb_spec k0 k'); [congruence|done].
Qed.

Lemma get_absent (k : string) (d : dict) :
  ~ In k (keys d) -> get k d = None.
Proof.
  induction d as [|[k0 v0] rest IH]; cbn; [done|].
  intros Hnot. destruct (String.eqb_spec k k0) as [->|]; [tauto|].
  apply IH. tauto.
Qed.

(** The loop [for k, v in other.items(): result[k] = g(v, result.get(k))]
    looked up at one key, for a dictionary [other] with distinct keys. *)
Lemma get_fold_set (g : json -> option json -> json) (k : string)
    (other base : dict) :
  List.NoDup (keys other) ->
  get k (fold_left (fun result kv =>
                      set (fst kv) (g (snd kv) (get (fst kv) result)) result)
           other base)
  = match get k other with
    | Some v => Some (g v (get k base))
    | None => get k base
    end.
Proof.
  revert base. induction other as [|[k1 v1] rest IH]; intros base Hnd;
    [done|].
  cbn [fold_left fst snd get]. cbn in Hnd. apply NoDup_cons_iff in Hnd as [Hk1 Hnd].
  rewrite IH by done. rewrite get_set.
  destruct (String.eqb_spec k k1) as [->|Hne]; [|done].
  by rewrite (get_absent k1 rest).
Qed.

(** [d.update(other)] looked up at one key. *)
Lemma get_update (k : string) (d other : dict) :
  List.NoDup (keys other) ->
  get k (update d other)
  = match get k other with Some v => Some v | None => get k d end.
Proof. apply (get_fold_set (fun v _ => v)). Qed.

End Dicts.

(* ------------------------------------------------------------------ *)
(** ** Hook and tool-server discovery (plugins/loader.py) *)

Section Discovery.
Import Loader.
Context `{PyLib}.

(** [merge_value] on two objects is [_deep_merge] on them. *)
Lemma merge_value_objects (o b : Json.dict) :
  merge_value (JObj o) (Some (JObj b)) = JObj (deep_merge_dicts b o).
Proof.
  cbn [merge_value]. f_equal. unfold deep_merge_dicts.
  revert b. induction o as [|[k v] rest IH]; intros b; [done|].
  cbn [fold_left fst snd]. apply IH.
Qed.

(** Both values are objects, or both are arrays. *)
Definition both_containers (v cur : json) : bool :=
  match v, cur with
  | JObj _, JObj _ | JArr _, JArr _ => true
  | _, _ => false
  end.

Lemma merge_value_overwrites (v cur : json) :
  both_containers v cur = false -> merge_value v (Some cur) = v.
Proof. destruct v, cur; done. Qed.

Lemma merge_value_new_key (v : json) : merge_value v None = v.
Proof. by destruct v. Qed.

(** [_deep_merge] looked up at one key. *)
Lemma get_deep_merge (k : string) (base override : Json.dict) :
  List.NoDup (Json.keys override) ->
  Json.get k (deep_merge_dicts base override)
  = match Json.get k override with
    | Some v => Some (merge_value v (Json.get k base))
    | None => Json.get k base
    end.
Proof. apply (get_fold_set merge_value). Qed.

(** The value hook discovery starts from: the content of
    [hooks/hooks.json] when the file is there and parses, else [{}]. *)
Definition hooks_sidecar (f : Fs.fs) (plugin_root : Fs.path) : json :=
  let p := Fs.joinpath (Fs.joinpath plugin_root "hooks") "hooks.json" in
  match f p with
  | Fs.Absent => JObj []
  | _ => match try_load f p with Some data => data | None => JObj [] end
  end.

(** The value tool-server discovery starts from: the [mcpServers] (else
    [servers]) member of [.mcp.json] when the file is there and parses. *)
Definition mcp_sidecar (f : Fs.fs) (plugin_root : Fs.path) : outcome json :=
  let p := Fs.joinpath plugin_root ".mcp.json" in
  match f p with
  | Fs.Absent => Ok (JObj [])
  | _ => match try_load f p with
         | Some raw => servers_of raw
         | None => Ok (JObj [])
         end
  end.

(** The path a manifest entry refers to is there, and is not one whose
    [stat] fails. *)
Definition present (f : Fs.fs) (p : Fs.path) : bool :=
  match Fs.exists_ f p with Ok true => true | _ => false end.

Definition stat_ok (f : Fs.fs) (p : Fs.path) : bool :=
  Py.is_ok (Fs.exists_ f p).

Lemma discover_hooks_start (f : Fs.fs) (root : Fs.path) (m : PluginManifest) :
  stat_ok f (Fs.joinpath (Fs.joinpath root "hooks") "hooks.json") = true ->
  discover_hooks f root m
  = match hooks m with
    | JObj _ => _deep_merge (hooks_sidecar f root) (hooks m)
    | JStr s =>
        if String.eqb s "" then Ok (hooks_sidecar f root)
        else
          let hook_path := Fs.joinpath root (Py.lstrip_chars "./" s) in
          let* there := Fs.exists_ f hook_path in
          if there then
            match try_load f hook_path with
            | Some data => _deep_merge (hooks_sidecar f root) data
            | None => Ok (hooks_sidecar f root)
            end
          else Ok (hooks_sidecar f root)
    | _ => Ok (hooks_sidecar f root)
    end.
Proof.
  unfold stat_ok, discover_hooks, hooks_sidecar, Fs.exists_.
  destruct (f (Fs.joinpath (Fs.joinpath root "hooks") "hooks.json"));
    done.
Qed.

Lemma discover_mcp_start (f : Fs.fs) (root : Fs.path) (m : PluginManifest)
    (servers : json) :
  stat_ok f (Fs.joinpath root ".mcp.json") = true ->
  mcp_sidecar f root = Ok servers ->
  discover_mcp f root m
  = match mcp_servers m with
    | JObj _ => mcp_update servers (mcp_servers m)
    | JStr s =>
        if String.eqb s "" then Ok servers
        else
          let mcp_path := Fs.joinpath root (Py.lstrip_chars "./" s) in
          let* there := Fs.exists_ f mcp_path in
          if there then
            match try_load f mcp_path with
            | Some raw =>
                match servers with
                | JObj _ => let* other := servers_of raw in
                            mcp_update servers other
                | v => Json.no_attribute v "update"
                end
            | None => Ok servers
            end
          else Ok servers
    | _ => Ok servers
    end.
Proof.
  unfold stat_ok, discover_mcp, mcp_sidecar, Fs.exists_.
  destruct (f (Fs.joinpath root ".mcp.json")); try done;
    cbn; try (by intros _ [= <-]);
    intros _; destruct (try_load _ _); try (by intros [= <-]);
    by intros ->.
Qed.

End Discovery.

Section DiscoveryMerge.
Import Loader.
Context `{PyLib}.

Lemma discover_components_sources (f : Fs.fs) (root : Fs.path)
    (m : PluginManifest) (c : PluginComponents) :
  _discover_components f root m = Ok c ->
  exists h s,
    discover_hooks f root m = Ok h
    /\ discover_mcp f root m = Ok s
    /\ hooks_config c
       = (if Json.truthy h then expand_plugin_root h (Fs.path_str root)
          else JObj [])
    /\ comp_mcp_servers c
       = (if Json.truthy s then expand_plugin_root s (Fs.path_str root)
          else JObj []).
Proof.
  unfold _discover_components.
  destruct (discover_dirs f root "commands" _ _); [|done..].
  destruct (discover_dirs f root "skills" _ _); [|done..].
  destruct (discover_dirs f root "agents" _ _); [|done..].
  destruct (discover_hooks f root m) as [h| |]; [|done..].
  destruct (discover_mcp f root m) as [s| |]; [|done..].
  cbn. intros [= <-]. by exists h, s.
Qed.

(** C7, amended. Hook discovery starts from the sidecar [hooks/hooks.json]
    and deep-merges the manifest's inline object, or the content of the
    file the manifest refers to, on top: objects merge key by key and
    recursively, arrays concatenate, anything else is overwritten.
    Tool-server discovery starts from the servers of the sidecar
    [.mcp.json] and applies [dict.update] with the manifest's: a server
    named in both is replaced as a whole, nothing is merged below the
    server name. The components of the plugin hold the two results with
    the root placeholder expanded. *)
Theorem discovery_merges_on_top (f : Fs.fs) (root : Fs.path)
    (m : PluginManifest) :
  (forall base override k,
     List.NoDup (Json.keys override) ->
     Json.get k (deep_merge_dicts base override)
     = match Json.get k override with
       | Some v => Some (merge_value v (Json.get k base))
       | None => Json.get k base
       end)
  /\ (forall o b, merge_value (JObj o) (Some (JObj b))
                  = JObj (deep_merge_dicts b o))
  /\ (forall l bl, merge_value (JArr l) (Some (JArr bl)) = JArr (bl ++ l))
  /\ (forall v cur, both_containers v cur = false ->
                    merge_value v (Some cur) = v)
  /\ (forall v, merge_value v None = v)
  /\ (forall b,
        stat_ok f (Fs.joinpath (Fs.joinpath root "hooks") "hooks.json") = true ->
        hooks_sidecar f root = JObj b ->
        (forall o, hooks m = JObj o ->
           discover_hooks f root m = Ok (JObj (deep_merge_dicts b o)))
        /\ (forall s o,
              hooks m = JStr s -> String.eqb s "" = false ->
              present f (Fs.joinpath root (Py.lstrip_chars "./" s)) = true ->
              try_load f (Fs.joinpath root (Py.lstrip_chars "./" s))
                = Some (JObj o) ->
              discover_hooks f root m = Ok (JObj (deep_merge_dicts b o))))
  /\ (forall d,
        stat_ok f (Fs.joinpath root ".mcp.json") = true ->
        mcp_sidecar f root = Ok (JObj d) ->
        (forall o, mcp_servers m = JObj o ->
           discover_mcp f root m = Ok (JObj (Json.update d o)))
        /\ (forall s raw o,
              mcp_servers m = JStr s -> String.eqb s "" = false ->
              present f (Fs.joinpath root (Py.lstrip_chars "./" s)) = true ->
              try_load f (Fs.joinpath root (Py.lstrip_chars "./" s))
                = Some raw ->
              servers_of raw = Ok (JObj o) ->
              discover_mcp f root m = Ok (JObj (Json.update d o))))
  /\ (forall d o k,
        List.NoDup (Json.keys o) ->
        Json.get k (Json.update d o)
        = match Json.get k o with Some v => Some v | None => Json.get k d end)
  /\ (forall c,
        _discover_components f root m = Ok c ->
        exists h s,
          discover_hooks f root m = Ok h
          /\ discover_mcp f root m = Ok s
          /\ hooks_config c
             = (if Json.truthy h then expand_plugin_root h (Fs.path_str root)
                else JObj [])
          /\ comp_mcp_servers c
             = (if Json.truthy s then expand_plugin_root s (Fs.path_str root)
                else JObj [])).
Proof.
  split; [intros; by apply get_deep_merge|].
  split; [apply merge_value_objects|].
  split; [done|].
  split; [apply merge_value_overwrites|].
  split; [apply merge_value_new_key|].
  split; [|split; [|split]].
  - intros b Hstat Hside. split.
    + intros o Ho. rewrite discover_hooks_start by done.
      by rewrite Ho, Hside.
    + intros s o Hs Hne Hthere Hload. rewrite discover_hooks_start by done.
      rewrite Hs, Hne, Hside. unfold present in Hthere. cbn zeta.
      destruct (Fs.exists_ f _) as [[|]| |]; [|done..].
      cbn. by rewrite Hload.
  - intros d Hstat Hside. split.
    + intros o Ho. rewrite (discover_mcp_start f root m (JObj d)) by done.
      by rewrite Ho.
    + intros s raw o Hs Hne Hthere Hload Hraw.
      rewrite (discover_mcp_start f root m (JObj d)) by done.
      rewrite Hs, Hne. unfold present in Hthere. cbn zeta.
      destruct (Fs.exists_ f _) as [[|]| |]; [|done..].
      cbn. by rewrite Hload, Hraw.
  - intros. by apply get_update.
  - apply discover_components_sources.
Qed.

End DiscoveryMerge.

Section DiscoveryInstances.
Import Fs Loader.

(** A plugin whose manifest and sidecar files both configure hooks and the
    tool server [db]. *)
Definition db_plugin_fs : fs :=
  fun p =>
    if path_eqb p ["plugins"; "db"; ".claude-plugin"; "plugin.json"] then
      File (json_text
        "{'name': 'db', 'hooks': {'PreToolUse': [{'matcher': 'Edit'}], 'meta': {'b': 2}}, 'mcpServers': {'db': {'args': ['--safe']}}}")
    else if path_eqb p ["plugins"; "db"; "hooks"; "hooks.json"] then
      File (json_text "{'PreToolUse': [{'matcher': 'Write'}], 'meta': {'a': 1}}")
    else if path_eqb p ["plugins"; "db"; ".mcp.json"] then
      File (json_text
        "{'mcpServers': {'db': {'command': '${CLAUDE_PLUGIN_ROOT}/run', 'args': ['--fast']}}}")
    else if is_prefix p ["plugins"; "db"]
            || path_eqb p ["plugins"; "db"; ".claude-plugin"]
            || path_eqb p ["plugins"; "db"; "hooks"] then Dir
    else Absent.

Definition db_root : path := ["plugins"; "db"].

Definition db_inline_hooks : Json.dict :=
  [("PreToolUse", JArr [JObj [("matcher", JStr "Edit")]]);
   ("meta", JObj [("b", JNum 2)])].

Definition db_inline_servers : Json.dict :=
  [("db", JObj [("args", JArr [JStr "--safe"])])].

Definition db_manifest : PluginManifest :=
  {| name := "db"; version := JStr ""; description := JStr "";
     author := JObj []; homepage := JStr ""; repository := JStr "";
     license := JStr ""; keywords := JArr []; commands := [];
     agents := []; skills := []; hooks := JObj db_inline_hooks;
     mcp_servers := JObj db_inline_servers; lsp_servers := JStr "" |}.

Example db_manifest_parsed :
  @_parse_manifest Mini.lib db_plugin_fs
    ["plugins"; "db"; ".claude-plugin"; "plugin.json"]
  = Ok (Some db_manifest).
Proof. reflexivity. Qed.

(** C7, as stated, fails for the tool servers: the server [db] of the
    sidecar loses its [command], and its [args] are replaced rather than
    concatenated, whereas a deep merge keeps the first and joins the
    second. *)
Lemma tool_servers_not_deep_merged_counterexample :
  exists p sidecar merged,
    @load_plugin Mini.lib db_plugin_fs db_root "" = Ok p
    /\ error p = ""
    /\ @mcp_sidecar Mini.lib db_plugin_fs db_root = Ok sidecar
    /\ _deep_merge sidecar (mcp_servers (manifest p)) = Ok merged
    /\ merged
       = JObj [("db", JObj [("command", JStr "${CLAUDE_PLUGIN_ROOT}/run");
                            ("args", JArr [JStr "--fast"; JStr "--safe"])])]
    /\ comp_mcp_servers (components p)
       = JObj [("db", JObj [("args", JArr [JStr "--safe"])])]
    /\ comp_mcp_servers (components p)
       <> expand_plugin_root merged (path_str db_root).
Proof.
  eexists _, _, _.
  split; [reflexivity|]. split; [reflexivity|]. split; [reflexivity|].
  split; [reflexivity|]. split; [reflexivity|]. split; [reflexivity|].
  discriminate.
Qed.

Lemma discovery_merges_on_top_witness :
  @discover_hooks Mini.lib db_plugin_fs db_root db_manifest
  = Ok (JObj [("PreToolUse", JArr [JObj [("matcher", JStr "Write")];
                                   JObj [("matcher", JStr "Edit")]]);
              ("meta", JObj [("a", JNum 1); ("b", JNum 2)])])
  /\ @discover_mcp Mini.lib db_plugin_fs db_root db_manifest
     = Ok (JObj [("db", JObj [("args", JArr [JStr "--safe"])])]).
Proof.
  pose proof (@discovery_merges_on_top Mini.lib db_plugin_fs db_root
                db_manifest) as (_ & _ & _ & _ & _ & Hhooks & Hmcp & _).
  split.
  - refine (proj1 (Hhooks
      [("PreToolUse", JArr [JObj [("matcher", JStr "Write")]]);
       ("meta", JObj [("a", JNum 1)])] eq_refl eq_refl)
      db_inline_hooks eq_refl).
  - refine (proj1 (Hmcp
      [("db", JObj [("command", JStr "${CLAUDE_PLUGIN_ROOT}/run");
                    ("args", JArr [JStr "--fast"])])] eq_refl eq_refl)
      db_inline_servers eq_refl).
Defined.

End DiscoveryInstances.

(* ------------------------------------------------------------------ *)
(** ** Loading a plugin (plugins/loader.py) *)

Section LoadPlugin.
Import Fs Loader.
Context `{PyLib}.






End LoadPlugin.

Section LoadPluginInstances.
Import Fs Loader.

Definition fmt_root : path := ["plugins"; "fmt"].

(** A plugin directory in which [plugin.json] is cut off after its first
    character; [sidecar] is what [.mcp.json] holds, if anything. *)
Definition corrupt_manifest_fs (sidecar : entry) : fs :=
  fun p =>
    if path_eqb p ["plugins"; "fmt"; ".claude-plugin"; "plugin.json"] then
      File "{"
    else if path_eqb p ["plugins"; "fmt"; ".mcp.json"] then sidecar
    else if is_prefix p fmt_root
            || path_eqb p ["plugins"; "fmt"; ".claude-plugin"]
            || path_eqb p ["plugins"; "fmt"; "commands"] then Dir
    else Absent.





End LoadPluginInstances.

(* ------------------------------------------------------------------ *)
(** ** Adding a remote marketplace (plugins/marketplace.py) *)

Section PathFacts.
Import Fs.

Lemma is_prefix_antisym (p q : path) :
  is_prefix p q = true -> is_prefix q p = true -> p = q.
Proof.
  revert q. induction p as [|a p IH]; intros [|b q]; cbn; try done.
  intros [Hab Hpq]%andb_prop [_ Hqp]%andb_prop.
  apply String.eqb_eq in Hab as ->. f_equal. by apply IH.
Qed.

Lemma path_eqb_refl (p : path) : path_eqb p p = true.
Proof.
  unfold path_eqb. rewrite Nat.eqb_refl. cbn.
  induction p as [|a p IH]; [done|].
  cbn. by rewrite String.eqb_refl.
Qed.

Lemma below_not_ancestor (c p : path) :
  below c p = true -> is_prefix p c = false.
Proof.
  unfold below. intros [Hcp Hne]%andb_prop.
  destruct (is_prefix p c) eqn:Hpc; [|done].
  rewrite (is_prefix_antisym c p Hcp Hpc), path_eqb_refl in Hne. done.
Qed.

Lemma below_child (c : path) (x : string) : below c (c ++ [x]) = true.
Proof.
  unfold below. apply andb_true_intro. split.
  - induction c as [|a c IH]; [done|]. cbn. by rewrite String.eqb_refl.
  - unfold path_eqb. rewrite length_app. cbn.
    replace (List.length c =? List.length c + 1)%nat with false; [done|].
    symmetry. apply Nat.eqb_neq. lia.
Qed.

(** Creating the cache directory leaves everything below it as it was. *)
Lemma mkdir_p_below (c : path) (f f1 : fs) (r : outcome unit) :
  mkdir_p c f = (r, f1) ->
  forall p, below c p = true -> f1 p = f p.
Proof.
  unfold mkdir_p. destruct (blocked f c); intros [= _ <-]; [done|].
  intros p Hp. by rewrite (below_not_ancestor c p Hp).
Qed.

End PathFacts.

Section AddRemote.
Import Fs Marketplace.
Context `{PyLib} (W : World) (global_dir : path).

Definition tmp_repo : path := joinpath (tmp W) "repo".

(** What cloning a remote source and parsing its descriptor give: the
    cloned tree and the marketplace when both succeed, [None] when the
    clone fails, no descriptor is found or the descriptor does not parse. *)
Definition fetched (source : string) : outcome (option (fs * Marketplace)) :=
  let* cloned := _clone_source W source tmp_repo in
  match cloned with
  | None => Ok None
  | Some tree =>
      let* mj := _find_marketplace_json tree tmp_repo in
      match mj with
      | None => Ok None
      | Some mj =>
          let* parsed := _parse_marketplace_json tree mj in
          Ok (match parsed with
              | Some m => Some (tree, m)
              | None => None
              end)
      end
  end.

(** The source is one [add_marketplace] treats as remote, in the file
    system it sees after creating the cache directory. *)
Definition takes_remote_branch (f1 : fs) (source : string) : bool :=
  let source := Py.strip source in
  let source_path := resolve (cwd W) source in
  match is_dir f1 source_path, is_file f1 source_path with
  | Ok false, Ok isfile =>
      negb (isfile && String.eqb (Fs.name source_path) "marketplace.json")
      && (_is_github_ref source || _is_git_url source)
  | _, _ => false
  end.

Lemma add_remote_unfetched (source : string) (f : fs) :
  (forall tree m, fetched source <> Ok (Some (tree, m))) ->
  add_remote W global_dir source f
  = (match fetched source with
     | Ok _ => Ok None
     | Raise e => Raise e
     | Unmodelled => Unmodelled
     end, f).
Proof.
  unfold fetched, add_remote. fold tmp_repo.
  unfold Fs.bind, Fs.lift, Fs.ret, Py.bind.
  intros Hnot.
  destruct (_clone_source W source tmp_repo) as [[tree|]| |];
    cbn beta iota in *; try reflexivity.
  destruct (_find_marketplace_json tree tmp_repo) as [[mj|]| |];
    cbn beta iota in *; try reflexivity.
  destruct (_parse_marketplace_json tree mj) as [[m|]| |];
    cbn beta iota in *; try reflexivity.
  exfalso. by apply (Hnot tree m).
Qed.

Lemma add_marketplace_remote (source : string) (f f1 : fs) :
  mkdir_p (_marketplace_cache_dir global_dir) f = (Ok tt, f1) ->
  takes_remote_branch f1 source = true ->
  add_marketplace W global_dir source f
  = add_remote W global_dir (Py.strip source) f1.
Proof.
  intros Hmk Hremote. unfold add_marketplace, takes_remote_branch in *.
  unfold Fs.bind at 1. rewrite Hmk. unfold Fs.bind at 1, Fs.query at 1.
  destruct (is_dir f1 _) as [[|]| |]; try done.
  unfold Fs.bind at 1, Fs.query at 1.
  destruct (is_file f1 _) as [isfile| |]; try done.
  apply andb_prop in Hremote as [Hfile Hkind].
  apply negb_true_iff in Hfile. by rewrite Hfile, Hkind.
Qed.

Lemma add_marketplace_no_cache (source : string) (f f1 : fs)
    (r : outcome unit) :
  mkdir_p (_marketplace_cache_dir global_dir) f = (r, f1) ->
  Py.is_ok r = false ->
  snd (add_marketplace W global_dir source f) = f1
  /\ Py.is_ok (fst (add_marketplace W global_dir source f)) = false.
Proof.
  intros Hmk Hr.
  assert (Heq : add_marketplace W global_dir source f
                = (match r with
                   | Raise e => Raise e
                   | _ => Unmodelled
                   end, f1)).
  { unfold add_marketplace. unfold Fs.bind at 1. rewrite Hmk.
    by destruct r. }
  rewrite Heq. by destruct r.
Qed.

(** C6. For a remote source, the registry index and the marketplace cache
    are changed only if the clone and the descriptor parse both succeed.
    Otherwise the remote branch of [add_marketplace] leaves the whole file
    system as it found it, and [add_marketplace] itself leaves every path
    below the cache directory, the index file [_marketplaces.json] among
    them, as it was (it has made sure the cache directory exists). In
    particular, a source that clones but holds no descriptor gives no
    marketplace, an unchanged index and no cache entry. *)
Theorem add_marketplace_remote_atomic (source : string) (f : fs) :
  let cache_dir := _marketplace_cache_dir global_dir in
  ((forall tree m, fetched source <> Ok (Some (tree, m))) ->
   snd (add_remote W global_dir source f) = f)
  /\ (forall tree,
        _clone_source W source tmp_repo = Ok (Some tree) ->
        _find_marketplace_json tree tmp_repo = Ok None ->
        add_remote W global_dir source f = (Ok None, f))
  /\ (takes_remote_branch (snd (mkdir_p cache_dir f)) source = true ->
      (forall tree m, fetched (Py.strip source) <> Ok (Some (tree, m))) ->
      (forall p, below cache_dir p = true ->
                 snd (add_marketplace W global_dir source f) p = f p)
      /\ snd (add_marketplace W global_dir source f)
           (_marketplace_meta_path global_dir)
         = f (_marketplace_meta_path global_dir)
      /\ (fst (mkdir_p cache_dir f) = Ok tt ->
          fetched (Py.strip source) = Ok None ->
          fst (add_marketplace W global_dir source f) = Ok None)).
Proof.
  intros cache_dir. split; [|split].
  - intros Hnot. by rewrite add_remote_unfetched.
  - intros tree Hclone Hfind.
    rewrite add_remote_unfetched.
    + unfold fetched. rewrite Hclone. cbn [Py.bind]. by rewrite Hfind.
    + intros t m. unfold fetched. rewrite Hclone. cbn [Py.bind].
      by rewrite Hfind.
  - destruct (mkdir_p cache_dir f) as [r f1] eqn:Hmk. cbn [fst snd].
    intros Hremote Hnot.
    assert (Hbelow : forall p, below cache_dir p = true -> f1 p = f p).
    { by apply (mkdir_p_below cache_dir f f1 r). }
    assert (Hindex : below cache_dir (_marketplace_meta_path global_dir)
                     = true).
    { unfold _marketplace_meta_path, cache_dir, _marketplace_cache_dir.
      apply (below_child (joinpath global_dir "marketplaces")
               "_marketplaces.json"). }
    destruct r as [[]|e|].
    + rewrite (add_marketplace_remote source f f1 Hmk Hremote).
      rewrite add_remote_unfetched by done. cbn [fst snd].
      split; [exact Hbelow|]. split; [by apply Hbelow|].
      by intros _ ->.
    + destruct (add_marketplace_no_cache source f f1 (Raise e) Hmk eq_refl)
        as [-> _].
      split; [exact Hbelow|]. split; [by apply Hbelow|]. done.
    + destruct (add_marketplace_no_cache source f f1 Unmodelled Hmk eq_refl)
        as [-> _].
      split; [exact Hbelow|]. split; [by apply Hbelow|]. done.
Qed.

End AddRemote.

Section AddRemoteInstances.
Import Fs Marketplace.

Definition home : path := ["home"; ".langcode"].

(** A home directory with nothing in it yet. *)
Definition fresh_fs : fs :=
  fun p => if is_prefix p home then Dir else Absent.

(** What [git clone] leaves in the temporary directory: a repository with
    the files [files] at its top. *)
Definition cloned_tree (files : list (string * string)) : fs :=
  fun p =>
    if is_prefix p ["tmp"; "t1"; "repo"] then Dir
    else match p with
         | ["tmp"; "t1"; "repo"; file] =>
             match Hooks.var_get file files with
             | Some text => File text
             | None => Absent
             end
         | _ => Absent
         end.

(** A world in which the clone succeeds and yields [files]. *)
Definition cloning_world (files : list (string * string)) : World :=
  {| cwd := ["work"]; tmp := ["tmp"; "t1"];
     git := fun _ => GitExit 0 (cloned_tree files) |}.

(** A world without network: the clone exits with a failure. *)
Definition offline_world : World :=
  {| cwd := ["work"]; tmp := ["tmp"; "t1"];
     git := fun _ => GitExit 128 (fun _ => Absent) |}.

Definition index_path : path := home ++ ["marketplaces"; "_marketplaces.json"].

(** A repository that clones but holds no descriptor, and a clone that
    fails: no marketplace, no index file, no cache entry. *)
Lemma add_marketplace_remote_atomic_witness :
  let readme := [("README.md", "hello")] in
  (fst (@add_marketplace Mini.lib (cloning_world readme) home "acme/tools"
          fresh_fs) = Ok None
   /\ snd (@add_marketplace Mini.lib (cloning_world readme) home "acme/tools"
             fresh_fs) index_path = Absent
   /\ snd (@add_marketplace Mini.lib (cloning_world readme) home "acme/tools"
             fresh_fs) (home ++ ["marketplaces"; "tools"]) = Absent)
  /\ @add_remote Mini.lib offline_world home "acme/tools" fresh_fs
     = (Ok None, fresh_fs).
Proof.
  intros readme. split.
  - pose proof (proj2 (proj2 (@add_marketplace_remote_atomic Mini.lib
                  (cloning_world readme) home "acme/tools" fresh_fs))
                eq_refl) as Hwit.
    destruct Hwit as (Hbelow & Hindex & Hnone).
    { intros tree m. discriminate. }
    split; [by apply Hnone|]. split.
    + exact Hindex.
    + exact (Hbelow (home ++ ["marketplaces"; "tools"]) eq_refl).
  - pose proof (proj1 (@add_marketplace_remote_atomic Mini.lib offline_world
                  home "acme/tools" fresh_fs)) as Hsame.
    assert (Hsnd : snd (@add_remote Mini.lib offline_world home "acme/tools"
                          fresh_fs) = fresh_fs).
    { apply Hsame. intros tree m. discriminate. }
    destruct (@add_remote Mini.lib offline_world home "acme/tools" fresh_fs)
      as [r f'] eqn:Hrun.
    cbn [snd] in Hsnd. subst f'. f_equal.
    change r with (fst (r, fresh_fs)). rewrite <- Hrun. reflexivity.
Defined.

(** When the clone and the parse both succeed, the marketplace is copied
    into the cache and recorded in the index. *)
Example add_marketplace_remote_success :
  let files := [("marketplace.json",
                 json_text "{'name': 'tools', 'plugins': [{'name': 'fmt', 'source': './fmt'}]}")] in
  let run := @add_marketplace Mini.lib (cloning_world files) home "acme/tools"
               fresh_fs in
  option_map name <$> match fst run with Ok m => Some m | _ => None end
    = Some (Some "tools")
  /\ snd run (home ++ ["marketplaces"; "tools"]) = Dir
  /\ snd run (home ++ ["marketplaces"; "tools"; "marketplace.json"])
     = File (json_text "{'name': 'tools', 'plugins': [{'name': 'fmt', 'source': './fmt'}]}")
  /\ snd run index_path
     = File (@json_dumps Mini.lib
               (JObj [("marketplaces",
                       JObj [("tools",
                              JObj [("source_type", JStr "github");
                                    ("source_ref", JStr "acme/tools")])])])
             +:+ Middleware.newline).
Proof. repeat split; vm_compute; reflexivity. Qed.

End AddRemoteInstances.

(* ================================================================== *)
(** * Further properties of the hook engine *)
(* ================================================================== *)

Section Isolation.
Import Hooks Sys.
Context `{PyLib} (W : World).

Lemma get_rules_set_rules_other (config : HooksConfig) (e1 e2 : string)
    (rules : list HookRule) :
  e1 <> e2 -> get_rules (set_rules config e2 rules) e1 = get_rules config e1.
Proof.
  intros Hne. unfold get_rules, set_rules.
  cbn [PreToolUse PostToolUse Stop SubagentStop SessionStart SessionEnd
       UserPromptSubmit PreCompact Notification].
  repeat match goal with
         | |- context [String.eqb e1 ?s] =>
             destruct (String.eqb_spec e1 s) as [->|?];
             [cbn; destruct (String.eqb_spec e2 s); [congruence|reflexivity]|]
         end.
  reflexivity.
Qed.

(** Rules registered under one event play no part in the dispatch of
    another: registering them leaves the outcome and the effects of that
    dispatch exactly as they were. *)
Theorem dispatch_isolated (config : HooksConfig) (e1 e2 : string)
    (rules : list HookRule) (mv : string) (vars : option variables)
    (tr : trace) :
  e1 <> e2 ->
  execute_hooks W (set_rules config e2 rules) e1 mv vars tr
  = execute_hooks W config e1 mv vars tr.
Proof.
  intros Hne. unfold execute_hooks.
  by rewrite get_rules_set_rules_other.
Qed.

(** When no rule of the event matches the value, the dispatch returns the
    default outcome (permission ["allow"], decision ["approve"], no
    messages) and has no effect: no subprocess is started. *)
Theorem no_match_default_outcome (config : HooksConfig) (event mv : string)
    (vars : option variables) (tr : trace) :
  forallb (fun r => negb (matches r mv)) (get_rules config event) = true ->
  execute_hooks W config event mv vars tr = Ok (default_result, tr).
Proof.
  intros Hnone. rewrite execute_hooks_firing. unfold firing.
  induction (get_rules config event) as [|r rs IH]; [reflexivity|].
  cbn [forallb] in Hnone. apply andb_prop in Hnone as [Hr Hrs].
  cbn [List.filter]. apply negb_true_iff in Hr. rewrite Hr. by apply IH.
Qed.

End Isolation.

Section IsolationInstances.
Import Hooks Sys.

Lemma dispatch_isolated_witness :
  @execute_hooks Mini.lib timeout_world
    (set_rules empty "PostToolUse"
       [{| matcher := "*"; hooks := [sleep_hook] |}])
    "PreToolUse" "Write" None []
  = Ok (default_result, []).
Proof.
  rewrite (@dispatch_isolated Mini.lib timeout_world empty "PreToolUse"
             "PostToolUse" _ "Write" None []).
  - reflexivity.
  - discriminate.
Defined.

Lemma no_match_default_outcome_witness :
  @execute_hooks Mini.lib timeout_world
    (set_rules empty "PreToolUse"
       [{| matcher := "Write"; hooks := [sleep_hook] |}])
    "PreToolUse" "Read" None []
  = Ok (default_result, []).
Proof.
  apply (@no_match_default_outcome Mini.lib timeout_world). reflexivity.
Defined.

End IsolationInstances.

Section HookOutput.
Import Hooks Sys.
Context `{PyLib} (W : World).

(** Standard output that is not read as structured hook output: empty, not
    starting with a brace, or not valid JSON. *)
Definition is_plain (stdout : string) : bool :=
  String.eqb stdout ""
  || negb (Py.startswith stdout "{")
  || match json_loads stdout with None => true | Some _ => false end.

(** What a completed command hook adds to [messages] before its output is
    parsed: its trimmed standard output when there is any, then its trimmed
    standard error when the exit code is 2 and there is any. *)
Definition surfaced (rc : Z) (stdout stderr : string) : list string :=
  (if String.eqb (Py.strip stdout) "" then [] else [Py.strip stdout])
  ++ (if (rc =? 2) && negb (String.eqb (Py.strip stderr) "")
      then [Py.strip stderr] else []).

Lemma parse_plain_output (stdout event : string) (result : HookResult) :
  is_plain stdout = true -> _parse_hook_output stdout event result = Ok result.
Proof.
  unfold is_plain, _parse_hook_output.
  destruct (String.eqb stdout "" || negb (Py.startswith stdout "{")); [done|].
  cbn [orb]. by destruct (json_loads stdout).
Qed.

(** A command hook that completes with plain (non-JSON) output only adds
    messages: its output is never read as a decision. The permission, the
    input patch, the stop decision and the reason stay as they were,
    whatever the exit code, and standard error is shown only for exit
    code 2. *)
Theorem plain_output_only_adds_messages (event : string)
    (vars : option variables) (hook : HookDef) (result : HookResult)
    (tr : trace) (rc : Z) (stdout stderr : string) :
  spawns_nothing hook = false ->
  subprocess_run W tr (substituted_command hook vars) (timeout hook)
    = Completed rc stdout stderr ->
  is_plain (Py.strip stdout) = true ->
  exists result',
    run_hook W event vars hook result tr
    = Ok (result',
          tr ++ [EvRun (substituted_command hook vars) (timeout hook)])
    /\ permission result' = permission result
    /\ updated_input result' = updated_input result
    /\ decision result' = decision result
    /\ reason result' = reason result
    /\ messages result' = messages result ++ surfaced rc stdout stderr.
Proof.
  unfold spawns_nothing, run_hook.
  destruct (String.eqb (type hook) "command"); [|done].
  cbn [negb orb]. intros -> Hrun Hplain.
  unfold run_command_hook, bind, history, emit, lift. rewrite Hrun.
  unfold ret. rewrite parse_plain_output by done.
  eexists. split; [reflexivity|]. unfold surfaced.
  destruct (String.eqb (Py.strip stdout) "");
    destruct ((rc =? 2) && negb (String.eqb (Py.strip stderr) ""));
    cbn; rewrite ?app_nil_r, <- ?app_assoc; done.
Qed.

(** The four steps of [_parse_hook_output] on the object the hook
    printed. *)
Definition apply_hso (data : Json.dict) (result : HookResult)
    : outcome HookResult :=
  let hso := Json.get_or "hookSpecificOutput" (JObj []) data in
  if Json.truthy hso then
    match hso with
    | JObj h =>
        let* result :=
          match Json.get "permissionDecision" h with
          | Some v => let* p := str_field v in Ok (with_permission result p)
          | None => Ok result
          end in
        match Json.get "updatedInput" h with
        | Some (JObj u) => Ok (with_updated_input result (Some u))
        | Some JNull => Ok (with_updated_input result None)
        | Some _ => Unmodelled
        | None => Ok result
        end
    | _ => Unmodelled
    end
  else Ok result.

Definition apply_decision (data : Json.dict) (result : HookResult)
    : outcome HookResult :=
  match Json.get "decision" data with
  | Some v => let* d := str_field v in Ok (with_decision result d)
  | None => Ok result
  end.

Definition apply_reason (data : Json.dict) (result : HookResult)
    : outcome HookResult :=
  match Json.get "reason" data with
  | Some v => let* s := str_field v in Ok (with_reason result s)
  | None => Ok result
  end.

Definition apply_message (data : Json.dict) (result : HookResult)
    : outcome HookResult :=
  match Json.get "systemMessage" data with
  | Some msg =>
      if Json.truthy msg
      then let* m := str_field msg in Ok (append_message result m)
      else Ok result
  | None => Ok result
  end.

Lemma parse_hook_output_steps (stdout event : string) (result : HookResult) :
  _parse_hook_output stdout event result
  = if String.eqb stdout "" || negb (Py.startswith stdout "{") then Ok result
    else match json_loads stdout with
         | None => Ok result
         | Some (JObj data) =>
             let* r1 := apply_hso data result in
             let* r2 := apply_decision data r1 in
             let* r3 := apply_reason data r2 in
             apply_message data r3
         | Some other => Json.no_attribute other "get"
         end.
Proof. reflexivity. Qed.

Lemma apply_hso_source (data : Json.dict) (r r1 : HookResult) :
  apply_hso data r = Ok r1 ->
  decision r1 = decision r
  /\ (permission r1 <> permission r ->
      exists h, Json.get "hookSpecificOutput" data = Some (JObj h)
                /\ Json.get "permissionDecision" h
                   = Some (JStr (permission r1)))
  /\ (updated_input r1 <> updated_input r ->
      exists h, Json.get "hookSpecificOutput" data = Some (JObj h)
                /\ Json.has "updatedInput" h = true).
Proof.
  unfold apply_hso, Json.get_or, Json.has.
  destruct (Json.get "hookSpecificOutput" data) as [hso|]; [|by intros [= <-]].
  destruct (Json.truthy hso); [|by intros [= <-]].
  destruct hso as [| | | | |h]; try done.
  destruct (Json.get "permissionDecision" h) as [[| | |p| |]|] eqn:Hpd;
    cbn [Py.bind str_field]; try done;
    destruct (Json.get "updatedInput" h) as [[| | | | |u]|] eqn:Hui;
    try done; intros [= <-]; cbn;
    (split; [done|]); split; intros Hne; try done;
    exists h; by rewrite ?Hpd, ?Hui.
Qed.

Lemma apply_decision_source (data : Json.dict) (r r1 : HookResult) :
  apply_decision data r = Ok r1 ->
  permission r1 = permission r
  /\ updated_input r1 = updated_input r
  /\ (decision r1 <> decision r ->
      Json.get "decision" data = Some (JStr (decision r1))).
Proof.
  unfold apply_decision.
  destruct (Json.get "decision" data) as [[| | |d| |]|]; cbn; try done;
    by intros [= <-].
Qed.

Lemma apply_reason_keeps (data : Json.dict) (r r1 : HookResult) :
  apply_reason data r = Ok r1 ->
  permission r1 = permission r /\ updated_input r1 = updated_input r
  /\ decision r1 = decision r.
Proof.
  unfold apply_reason.
  destruct (Json.get "reason" data) as [[| | |d| |]|]; cbn; try done;
    by intros [= <-].
Qed.

Lemma apply_message_keeps (data : Json.dict) (r r1 : HookResult) :
  apply_message data r = Ok r1 ->
  permission r1 = permission r /\ updated_input r1 = updated_input r
  /\ decision r1 = decision r.
Proof.
  unfold apply_message.
  destruct (Json.get "systemMessage" data) as [msg|]; [|by intros [= <-]].
  destruct (Json.truthy msg); [|by intros [= <-]].
  destruct msg; cbn; try done; by intros [= <-].
Qed.

(** The permission and the input patch change only through the member
    [hookSpecificOutput] of an object the hook printed, the stop decision
    only through the top-level member [decision]: a [permissionDecision]
    placed anywhere else has no effect. *)
Theorem output_fields_have_one_source (stdout event : string)
    (result result' : HookResult) :
  _parse_hook_output stdout event result = Ok result' ->
  (permission result' <> permission result ->
   exists data h,
     json_loads stdout = Some (JObj data)
     /\ Json.get "hookSpecificOutput" data = Some (JObj h)
     /\ Json.get "permissionDecision" h = Some (JStr (permission result')))
  /\ (updated_input result' <> updated_input result ->
      exists data h,
        json_loads stdout = Some (JObj data)
        /\ Json.get "hookSpecificOutput" data = Some (JObj h)
        /\ Json.has "updatedInput" h = true)
  /\ (decision result' <> decision result ->
      exists data,
        json_loads stdout = Some (JObj data)
        /\ Json.get "decision" data = Some (JStr (decision result'))).
Proof.
  rewrite parse_hook_output_steps.
  destruct (String.eqb stdout "" || negb (Py.startswith stdout "{"));
    [by intros [= <-]|].
  destruct (json_loads stdout) as [[| | | | |data]|]; try done;
    [|by intros [= <-]].
  destruct (apply_hso data result) as [r1| |] eqn:H1; [|done..].
  cbn [Py.bind].
  destruct (apply_decision data r1) as [r2| |] eqn:H2; [|done..].
  cbn [Py.bind].
  destruct (apply_reason data r2) as [r3| |] eqn:H3; [|done..].
  cbn [Py.bind]. intros H4.
  apply apply_hso_source in H1 as (Hd1 & Hp1 & Hu1).
  apply apply_decision_source in H2 as (Hp2 & Hu2 & Hd2).
  apply apply_reason_keeps in H3 as (Hp3 & Hu3 & Hd3).
  apply apply_message_keeps in H4 as (Hp4 & Hu4 & Hd4).
  rewrite Hp4, Hp3, Hp2, Hu4, Hu3, Hu2, Hd4, Hd3.
  split; [|split].
  - intros Hne. destruct (Hp1 Hne) as (h & Hh & Hperm). by exists data, h.
  - intros Hne. destruct (Hu1 Hne) as (h & Hh & Hup). by exists data, h.
  - rewrite <- Hd1. intros Hne. exists data. split; [done|]. by apply Hd2.
Qed.

End HookOutput.

Section HookOutputInstances.
Import Hooks Sys.

(** A world whose hook commands print a line of text and fail with code 1. *)
Definition noisy_world : World :=
  {| subprocess_run := fun _ _ _ => Completed 1 " checked 3 files " "warn";
     pt_prompt := fun _ _ => "" |}.

Definition lint_hook : HookDef := mkHookDef "command" "lint $FILE" "".

Lemma plain_output_only_adds_messages_witness :
  exists result',
    @run_hook Mini.lib noisy_world "PostToolUse"
      (Some [("FILE", "a.py")]) lint_hook default_result []
    = Ok (result', [EvRun "lint a.py" 30])
    /\ permission result' = "allow"
    /\ messages result' = ["checked 3 files"].
Proof.
  destruct (@plain_output_only_adds_messages Mini.lib noisy_world
              "PostToolUse" (Some [("FILE", "a.py")]) lint_hook
              default_result [] 1 " checked 3 files " "warn"
              eq_refl eq_refl eq_refl)
    as (r & Hrun & Hperm & _ & _ & _ & Hmsgs).
  exists r. split; [exact Hrun|]. split; [exact Hperm|exact Hmsgs].
Defined.

Lemma output_fields_have_one_source_witness :
  exists data,
    @json_loads Mini.lib (json_text "{'decision': 'block', 'reason': 'X'}")
    = Some (JObj data)
    /\ Json.get "decision" data = Some (JStr "block").
Proof.
  refine (proj2 (proj2 (@output_fields_have_one_source Mini.lib
            (json_text "{'decision': 'block', 'reason': 'X'}") "Stop"
            default_result
            (with_reason (with_decision default_result "block") "X")
            eq_refl)) _).
  discriminate.
Defined.

End HookOutputInstances.

(* ================================================================== *)
(** * Further properties of the hook model and parser *)
(* ================================================================== *)

Section RegistryAlgebra.
Import Hooks.

Lemma forallb_andb {A} (f g : A -> bool) (l : list A) :
  forallb (fun x => f x && g x) l = forallb f l && forallb g l.
Proof.
  induction l as [|x l IH]; [done|]. cbn. rewrite IH.
  destruct (f x), (g x), (forallb f l); done.
Qed.

Lemma merge_empty_r (A : HooksConfig) : merge A empty = A.
Proof. rewrite merge_fields. destruct A. cbn. by rewrite !app_nil_r. Qed.

Lemma merge_empty_l (A : HooksConfig) : merge empty A = A.
Proof. rewrite merge_fields. by destruct A. Qed.

(** The empty registry is the unit of [merge], and a merged registry is
    empty exactly when both of its parts are: merging never loses the rules
    of either side. *)
Theorem merge_unit_and_emptiness (A B : HooksConfig) :
  merge A empty = A
  /\ merge empty A = A
  /\ is_empty (merge A B) = is_empty A && is_empty B.
Proof.
  split; [apply merge_empty_r|]. split; [apply merge_empty_l|].
  unfold is_empty. rewrite <- forallb_andb.
  induction HOOK_EVENTS as [|e es IH]; [done|].
  cbn [forallb]. rewrite IH, get_rules_merge.
  by destruct (get_rules A e), (get_rules B e).
Qed.

End RegistryAlgebra.

Section Legacy.
Import Hooks Parser.

(** A loop that only ever merges into its accumulator can be run on the
    empty registry and merged in afterwards. *)
Lemma fold_left_merge {A} (F : HooksConfig -> A -> HooksConfig) :
  (forall acc x, F acc x = merge acc (F empty x)) ->
  forall l acc, fold_left F l acc = merge acc (fold_left F l empty).
Proof.
  intros HF. induction l as [|x l IH]; intros acc.
  - cbn [fold_left]. symmetry. apply merge_empty_r.
  - cbn [fold_left]. rewrite IH, (IH (F empty x)), (HF acc x).
    apply merge_assoc.
Qed.

(** Converting a legacy map is entry-wise: the registry of two maps laid
    end to end is the merge of their registries, so every entry appends its
    rule after those of the entries before it; and an entry whose key has
    no colon contributes nothing. *)
Theorem convert_legacy_entrywise (l1 l2 : list (string * string))
    (key value : string) :
  convert_legacy_hooks (l1 ++ l2)
  = merge (convert_legacy_hooks l1) (convert_legacy_hooks l2)
  /\ (Py.contains key ":" = false ->
      convert_legacy_hooks (l1 ++ (key, value) :: l2)
      = convert_legacy_hooks (l1 ++ l2)).
Proof.
  assert (Happ : forall a b,
            convert_legacy_hooks (a ++ b)
            = merge (convert_legacy_hooks a) (convert_legacy_hooks b)).
  { intros a b. unfold convert_legacy_hooks. rewrite fold_left_app.
    apply fold_left_merge. intros acc [k v]. rewrite merge_fields.
    destruct (Py.split_once ":" k) as [[prefix tool]|];
      [destruct (String.eqb prefix "pre");
       [|destruct (String.eqb prefix "post")]|];
      destruct acc; cbn; by rewrite ?app_nil_r. }
  split; [apply Happ|].
  intros Hno. rewrite !Happ. f_equal.
  change ((key, value) :: l2) with ([(key, value)] ++ l2). rewrite Happ.
  assert (Hnone : Py.split_once ":" key = None).
  { clear -Hno. induction key as [|c key IH]; [done|].
    cbn [Py.contains String.prefix Py.split_once] in *.
    destruct (ascii_dec ":" c) as [<-|Hc].
    - by destruct key.
    - cbn [orb] in Hno. rewrite (IH Hno).
      destruct (Ascii.eqb_spec c ":") as [->|]; done. }
  assert (Hentry : convert_legacy_hooks [(key, value)] = empty).
  { unfold convert_legacy_hooks. cbn [fold_left]. by rewrite Hnone. }
  rewrite Hentry. exact (merge_empty_l (convert_legacy_hooks l2)).
Qed.

Lemma convert_legacy_entrywise_witness :
  convert_legacy_hooks
    [("pre:Bash", "confirm"); ("invalid", "nope"); ("post:Write", "fmt $FILE")]
  = convert_legacy_hooks [("pre:Bash", "confirm"); ("post:Write", "fmt $FILE")].
Proof.
  apply (proj2 (convert_legacy_entrywise [("pre:Bash", "confirm")]
                  [("post:Write", "fmt $FILE")] "invalid" "nope")).
  reflexivity.
Defined.

End Legacy.

(* ================================================================== *)
(** * Further properties of the middleware *)
(* ================================================================== *)

Section MiddlewareMore.
Import Hooks Sys Middleware.
Context `{PyLib} (W : World) (config : HooksConfig) (request : ToolCall)
        (handler : Handler).

(** When the dispatch yields ["ask"] and the answer, trimmed and in lower
    case, is neither [y] nor [yes], the call evaluates to the message
    ["Tool call denied by user."] carrying the id of the call; the handler
    is not invoked and no [PostToolUse] hook runs: the trace ends with the
    prompt. *)
Theorem ask_declined_denies (tr0 tr1 : trace) (pre : HookResult) :
  pre_dispatch W config request tr0 = Ok (pre, tr1) ->
  permission pre = "ask" ->
  said_yes (answer W request tr1) = false ->
  wrap_tool_call W config request handler tr0
  = Ok (ToolMessage "Tool call denied by user." (tc_id request),
        (tr1 ++ [preview request]) ++ [EvPrompt "Allow? [y/N] "])
  /\ handler_calls ((tr1 ++ [preview request]) ++ [EvPrompt "Allow? [y/N] "])
     = handler_calls tr0.
Proof.
  intros Hpre Hperm Hno.
  destruct (execute_hooks_trace _ _ _ _ _ _ _ _ Hpre) as (evs & -> & Hevs).
  split.
  - unfold wrap_tool_call. fold (effective_args request).
    fold (call_vars request). unfold pre_dispatch in Hpre.
    unfold bind at 1. rewrite Hpre. cbn beta iota. rewrite Hperm.
    change (String.eqb "ask" "deny") with false.
    change (String.eqb "ask" "ask") with true. cbn iota.
    unfold bind at 1 2 3 4, emit at 1 2, history at 1, ret at 1.
    fold (preview request). fold (answer W request (tr0 ++ evs)).
    by rewrite Hno.
  - by rewrite !handler_calls_app, Hevs, !app_nil_r.
Qed.

(** With no rule registered for [PreToolUse] and [PostToolUse] the
    middleware is transparent: the handler is called once with the request
    as it came, and the call evaluates to whatever the handler returns or
    raises. *)
Theorem no_hooks_pass_through (tr : trace) :
  get_rules config "PreToolUse" = [] ->
  get_rules config "PostToolUse" = [] ->
  wrap_tool_call W config request handler tr
  = match handler tr request with
    | Ok result => Ok (result, tr ++ [EvHandler request])
    | Raise e => Raise e
    | Unmodelled => Unmodelled
    end.
Proof.
  intros Hpre Hpost. unfold wrap_tool_call, execute_hooks.
  rewrite Hpre, Hpost. cbn [for_each].
  unfold bind, ret, history, emit, lift, print_messages. cbn.
  by destruct (handler tr request).
Qed.

End MiddlewareMore.

Section MiddlewareMoreInstances.
Import Hooks Sys Middleware.

(** A user who declines. *)
Definition no_world : World :=
  {| subprocess_run := fun _ _ _ => TimeoutExpired;
     pt_prompt := fun _ _ => "n" |}.

Lemma ask_declined_denies_witness :
  exists tr,
    @wrap_tool_call Mini.lib no_world
      (Parser.convert_legacy_hooks [("pre:Bash", "confirm")])
      bash_call done_handler []
    = Ok (ToolMessage "Tool call denied by user." "456", tr)
    /\ handler_calls tr = [].
Proof.
  eexists.
  apply (@ask_declined_denies Mini.lib no_world
           (Parser.convert_legacy_hooks [("pre:Bash", "confirm")])
           bash_call done_handler [] [] (with_permission default_result "ask"));
    reflexivity.
Defined.

Lemma no_hooks_pass_through_witness :
  @wrap_tool_call Mini.lib no_world empty bash_call done_handler []
  = Ok (Command (JStr "done"), [EvHandler bash_call]).
Proof.
  apply (@no_hooks_pass_through Mini.lib no_world empty bash_call
           done_handler []); reflexivity.
Defined.

End MiddlewareMoreInstances.

(* ================================================================== *)
(** * Further properties of the plugin loader *)
(* ================================================================== *)

Section DeepMergeKeys.
Import Json Loader.

Lemma keys_set (k : string) (v : json) (d : dict) :
  keys (set k v d) = keys d ++ (if has k d then [] else [k]).
Proof.
  unfold has. induction d as [|[k0 v0] rest IH]; [done|].
  cbn [set get keys map fst]. destruct (String.eqb k k0) eqn:Hk.
  - cbn. by rewrite app_nil_r.
  - cbn [map fst app]. fold (keys (set k v rest)) (keys rest).
    by rewrite IH.
Qed.

Lemma has_in_keys (k : string) (d : dict) : has k d = true <-> In k (keys d).
Proof.
  unfold has. induction d as [|[k0 v0] rest IH]; cbn; [by split|].
  destruct (String.eqb_spec k k0) as [->|Hne]; [by split; [left|]|].
  rewrite IH. split; [by right|]. by intros [?|?].
Qed.

Lemma set_absent (k : string) (v : json) (d : dict) :
  ~ In k (keys d) -> set k v d = d ++ [(k, v)].
Proof.
  induction d as [|[k0 v0] rest IH]; cbn; [done|].
  intros Hnot. destruct (String.eqb_spec k k0) as [->|]; [tauto|].
  rewrite IH; [done|tauto].
Qed.

Lemma deep_merge_from_disjoint (base override : dict) :
  List.NoDup (keys override) ->
  (forall k, In k (keys override) -> ~ In k (keys base)) ->
  deep_merge_dicts base override = base ++ override.
Proof.
  unfold deep_merge_dicts. revert base.
  induction override as [|[k v] rest IH]; intros base Hnd Hdis.
  - cbn. by rewrite app_nil_r.
  - cbn [fold_left fst snd]. cbn in Hnd.
    apply NoDup_cons_iff in Hnd as [Hk Hnd].
    assert (Hkb : ~ In k (keys base)) by (apply Hdis; by left).
    rewrite (get_absent k base Hkb), merge_value_new_key.
    rewrite (set_absent k v base Hkb), IH; [by rewrite <- app_assoc|done|].
    intros k' Hin. unfold keys. rewrite map_app, in_app_iff. cbn.
    intros [Hb|[<-|[]]]; [|done].
    revert Hb. apply Hdis. by right.
Qed.

(** A deep merge never drops or reorders the keys of the base: the keys of
    the result are those of the base, in their order, followed by keys of
    the override that the base does not have. Merging an empty override
    changes nothing, and merging onto an empty base gives the override. *)
Theorem deep_merge_keeps_base_keys (base override : dict) :
  (exists added,
     keys (deep_merge_dicts base override) = keys base ++ added
     /\ forall k, In k added -> In k (keys override) /\ ~ In k (keys base))
  /\ deep_merge_dicts base [] = base
  /\ (List.NoDup (keys override) -> deep_merge_dicts [] override = override).
Proof.
  split; [|split; [done|]].
  - unfold deep_merge_dicts. revert base.
    induction override as [|[k v] rest IH]; intros base.
    + exists []. by rewrite app_nil_r.
    + cbn [fold_left fst snd].
      destruct (IH (set k (merge_value v (get k base)) base))
        as (added & Hkeys & Hadded).
      rewrite Hkeys, keys_set.
      exists ((if has k base then [] else [k]) ++ added).
      split; [by rewrite <- app_assoc|].
      intros k' [Hin|Hin]%in_app_iff.
      * destruct (has k base) eqn:Hhas; [done|].
        destruct Hin as [<-|[]]. split; [by left|].
        rewrite <- has_in_keys. by rewrite Hhas.
      * destruct (Hadded k' Hin) as [Hrest Hnot]. split; [by right|].
        intros Hb. apply Hnot. rewrite keys_set, in_app_iff. by left.
  - intros Hnd. rewrite deep_merge_from_disjoint; [done|done|].
    intros k _ [].
Qed.

Lemma deep_merge_keeps_base_keys_witness :
  deep_merge_dicts [] db_inline_hooks = db_inline_hooks.
Proof.
  apply (proj2 (proj2 (deep_merge_keeps_base_keys [] db_inline_hooks))).
  repeat constructor; cbn; intuition discriminate.
Defined.

End DeepMergeKeys.

Section LoaderInvariants.
Import Fs Loader.
Context `{PyLib}.

Lemma discover_dirs_all (f : fs) (root : path) (conventional : string)
    (declared : list json) (accept : fs -> path -> outcome bool)
    (P : path -> Prop) (dirs : list path) :
  (forall p, is_dir f p = Ok true -> P p) ->
  (forall p, accept f p = Ok true -> P p) ->
  discover_dirs f root conventional declared accept = Ok dirs ->
  Forall P dirs.
Proof.
  intros Hdir Hacc. unfold discover_dirs.
  destruct (is_dir f (joinpath root conventional)) as [d| |] eqn:Hd;
    [|done..].
  cbn [Py.bind].
  assert (Hstart : Forall P (if d then [joinpath root conventional] else [])).
  { destruct d; [|done]. constructor; [by apply Hdir|done]. }
  revert Hstart. generalize (if d then [joinpath root conventional] else []).
  clear Hd. revert dirs.
  induction declared as [|custom rest IH]; intros dirs start Hstart.
  - cbn. by intros [= <-].
  - cbn [fold_left]. cbn [Py.bind].
    destruct (custom_path root custom) as [p| |] eqn:Hp.
    + cbn [Py.bind]. destruct (accept f p) as [ok| |] eqn:Hok.
      * cbn [Py.bind]. apply IH. destruct ok; [|done].
        apply Forall_app. split; [done|]. constructor; [by apply Hacc|done].
      * cbn [Py.bind]. clear. intros Habs. exfalso. revert Habs.
        induction rest as [|c r IHr]; [done|]. by cbn.
      * cbn [Py.bind]. clear. intros Habs. exfalso. revert Habs.
        induction rest as [|c r IHr]; [done|]. by cbn.
    + cbn [Py.bind]. clear. intros Habs. exfalso. revert Habs.
      induction rest as [|c r IHr]; [done|]. by cbn.
    + cbn [Py.bind]. clear. intros Habs. exfalso. revert Habs.
      induction rest as [|c r IHr]; [done|]. by cbn.
Qed.

(** A directory, or a file whose name ends in [.md]. *)
Definition dir_or_markdown (f : fs) (p : path) : Prop :=
  f p = Dir
  \/ ((exists text, f p = File text) \/ (exists msg, f p = Unreadable msg))
     /\ suffix p = ".md".

(** Whatever component discovery returns was found in the file system:
    every skill directory is a directory, and every command or agent source
    is a directory or a file with the suffix [.md]; a declared path that is
    neither is left out. *)
Theorem discovered_components_exist (f : fs) (root : path)
    (m : PluginManifest) (c : PluginComponents) :
  _discover_components f root m = Ok c ->
  Forall (fun p => f p = Dir) (skill_dirs c)
  /\ Forall (dir_or_markdown f) (command_dirs c)
  /\ Forall (dir_or_markdown f) (agent_dirs c).
Proof.
  assert (Hdir : forall p, is_dir f p = Ok true -> f p = Dir).
  { intros p. unfold is_dir. by destruct (f p). }
  assert (Hmd : forall p, dir_or_md f p = Ok true -> dir_or_markdown f p).
  { intros p. unfold dir_or_md, dir_or_markdown, is_dir, is_file.
    destruct (f p) as [| |text|msg|msg]; cbn; try done.
    - by left.
    - intros [= Hs]. right. apply String.eqb_eq in Hs. split; [|done].
      left. by exists text.
    - intros [= Hs]. right. apply String.eqb_eq in Hs. split; [|done].
      right. by exists msg. }
  unfold _discover_components.
  destruct (discover_dirs f root "commands" _ _) as [cmds| |] eqn:Hc;
    [|done..].
  destruct (discover_dirs f root "skills" _ _) as [skls| |] eqn:Hs;
    [|done..].
  destruct (discover_dirs f root "agents" _ _) as [agts| |] eqn:Ha;
    [|done..].
  cbn [Py.bind].
  destruct (discover_hooks f root m); [|done..].
  destruct (discover_mcp f root m); [|done..].
  cbn [Py.bind]. intros [= <-]. cbn [skill_dirs command_dirs agent_dirs].
  split; [|split].
  - by apply (discover_dirs_all f root "skills" (skills m) is_dir).
  - apply (discover_dirs_all f root "commands" (commands m) dir_or_md);
      [intros p Hp; left; by apply Hdir|done|done].
  - apply (discover_dirs_all f root "agents" (agents m) dir_or_md);
      [intros p Hp; left; by apply Hdir|done|done].
Qed.

(** A loaded plugin is named after its manifest and rooted where it was
    loaded from, and a name override, when given, is the name of both the
    plugin and its manifest, whatever the manifest file says. *)
Theorem loaded_plugin_name (f : fs) (plugin_root : path)
    (name_override : string) (p : Plugin) :
  load_plugin f plugin_root name_override = Ok p ->
  plugin_name p = name (manifest p)
  /\ root p = plugin_root
  /\ (String.eqb name_override "" = false -> plugin_name p = name_override).
Proof.
  unfold load_plugin.
  destruct (is_dir f plugin_root) as [[|]| |]; cbn [Py.bind negb];
    try done.
  - destruct (_parse_manifest f _) as [parsed| |]; cbn [Py.bind]; [|done..].
    set (m0 := match parsed with
               | Some m => m
               | None => default_manifest _
               end).
    destruct (String.eqb name_override "") eqn:Hov.
    + destruct (_discover_components f plugin_root m0); try done;
        by intros [= <-].
    + destruct (_discover_components f plugin_root _); try done;
        by intros [= <-].
  - intros [= <-]. cbn. unfold str_or.
    by destruct (String.eqb name_override "").
Qed.

End LoaderInvariants.

Section LoaderInvariantsInstances.
Import Fs Loader.

Lemma discovered_components_exist_witness :
  exists c,
    @_discover_components Mini.lib (corrupt_manifest_fs Absent) fmt_root
      (default_manifest "fmt") = Ok c
    /\ Forall (dir_or_markdown (corrupt_manifest_fs Absent)) (command_dirs c).
Proof.
  eexists. split; [reflexivity|].
  by apply (@discovered_components_exist Mini.lib (corrupt_manifest_fs Absent)
              fmt_root (default_manifest "fmt")).
Defined.

Lemma loaded_plugin_name_witness :
  exists p,
    @load_plugin Mini.lib db_plugin_fs db_root "renamed" = Ok p
    /\ plugin_name p = "renamed" /\ name (manifest p) = "renamed".
Proof.
  eexists. split; [reflexivity|].
  destruct (@loaded_plugin_name Mini.lib db_plugin_fs db_root "renamed" _
              eq_refl) as (Hname & _ & Hov).
  split; [by apply Hov|]. rewrite <- Hname. by apply Hov.
Defined.

End LoaderInvariantsInstances.

(* ================================================================== *)
(** * Further properties of the marketplace resolver *)
(* ================================================================== *)

Section Resolver.
Import Fs Marketplace.
Context `{PyLib} (W : World) (global_dir : path).

(** [_find_marketplace_json] answers with a file that is there, preferring
    [.claude-plugin/marketplace.json] to [marketplace.json] at the root,
    and answers [None] only when neither is there. *)
Theorem find_descriptor_prefers_plugin_dir (f : fs) (root : path)
    (found : option path) :
  let standard :=
    joinpath (joinpath root ".claude-plugin") "marketplace.json" in
  let at_root := joinpath root "marketplace.json" in
  _find_marketplace_json f root = Ok found ->
  match found with
  | Some p =>
      f p <> Absent
      /\ (p = standard \/ (p = at_root /\ f standard = Absent))
  | None => f standard = Absent /\ f at_root = Absent
  end.
Proof.
  intros standard at_root. unfold _find_marketplace_json, exists_.
  fold standard at_root.
  destruct (f standard) eqn:Hs; cbn [Py.bind]; try (intros [= <-]);
    try (split; [by rewrite Hs|by left]); try done.
  destruct (f at_root) eqn:Hr; cbn [Py.bind]; try (intros [= <-]);
    try done; split; try (by rewrite Hr); by right.
Qed.

(** Every clone is shallow and lands in the destination it was given: the
    command is [git clone --depth 1], an optional [--branch ref] with a
    non-empty ref, the URL, the destination. A GitHub reference is cloned
    from [https://github.com/]. A source that is neither a GitHub
    reference nor a git URL is refused without running git at all. *)
Theorem clone_is_shallow (source : string) (dest : path) :
  match clone_command source dest with
  | Some cmd =>
      exists branch url,
        cmd = ["git"; "clone"; "--depth"; "1"] ++ branch
              ++ [url; path_str dest]
        /\ (branch = []
            \/ exists ref, branch = ["--branch"; ref] /\ ref <> "")
        /\ (_is_github_ref source = true ->
            Py.startswith url "https://github.com/" = true)
  | None =>
      _is_github_ref source = false /\ _is_git_url source = false
      /\ _clone_source W source dest = Ok None
  end.
Proof.
  unfold _clone_source, clone_command.
  destruct (_is_github_ref source) eqn:Hgh.
  - destruct (rsplit_once "#" source) as [[s ref]|].
    + exists (if String.eqb ref "" then [] else ["--branch"; ref]),
        ("https://github.com/" +:+ s +:+ ".git").
      split; [done|]. split; [|by intros _; destruct s].
      destruct (String.eqb_spec ref ""); [by left|right; by exists ref].
    + exists [], ("https://github.com/" +:+ source +:+ ".git").
      split; [done|]. split; [by left|by intros _; destruct source].
  - destruct (_is_git_url source) eqn:Hurl; [|done].
    destruct (rsplit_once "#" source) as [[s ref]|].
    + exists (if String.eqb ref "" then [] else ["--branch"; ref]), s.
      split; [done|]. split; [|done].
      destruct (String.eqb_spec ref ""); [by left|right; by exists ref].
    + exists [], source. split; [done|]. split; [by left|done].
Qed.

End Resolver.

Section ResolverInstances.
Import Fs Marketplace.

Lemma find_descriptor_prefers_plugin_dir_witness :
  let tree := cloned_tree [("marketplace.json", "{}")] in
  tree ["tmp"; "t1"; "repo"; "marketplace.json"] <> Absent
  /\ (["tmp"; "t1"; "repo"; "marketplace.json"]
      = ["tmp"; "t1"; "repo"; ".claude-plugin"; "marketplace.json"]
      \/ (["tmp"; "t1"; "repo"; "marketplace.json"]
          = ["tmp"; "t1"; "repo"; "marketplace.json"]
          /\ tree ["tmp"; "t1"; "repo"; ".claude-plugin"; "marketplace.json"]
             = Absent)).
Proof.
  intros tree.
  exact (find_descriptor_prefers_plugin_dir tree ["tmp"; "t1"; "repo"]
           (Some ["tmp"; "t1"; "repo"; "marketplace.json"]) eq_refl).
Defined.

End ResolverInstances.

(* ================================================================== *)
(** * Further properties of settings loading *)
(* ================================================================== *)

Section Settings.
Import Fs Config.
Context `{PyLib}.

Lemma apply_settings_hooks (config config' : Config) (f : fs) (p : path) :
  _apply_settings config f p = Ok config' ->
  exists h, hooks config' = Hooks.merge (hooks config) h.
Proof.
  unfold _apply_settings.
  destruct (exists_ f p) as [[|]| |]; cbn [Py.bind negb]; try done.
  2: { intros [= <-]. exists Hooks.empty. by rewrite merge_empty_r. }
  destruct (read_text f p) as [text| |]; cbn [Py.bind]; try done.
  destruct (json_loads text) as [[| | | | |data]|]; try done.
  destruct (match Json.get "model" data with
            | Some v => _
            | None => Ok config
            end) as [c1| |] eqn:H1; cbn [Py.bind]; try done.
  assert (Hc1 : hooks c1 = hooks config).
  { destruct (Json.get "model" data) as [v|]; [|by injection H1 as <-].
    destruct v; cbn in H1; try done. by injection H1 as <-. }
  destruct (match Json.get "enabledPlugins" data with
            | Some (JObj d) => _
            | _ => Ok c1
            end) as [c2| |] eqn:H2; cbn [Py.bind]; try done.
  assert (Hc2 : hooks c2 = hooks config).
  { rewrite <- Hc1.
    destruct (Json.get "enabledPlugins" data) as [[| | | | |d]|];
      try (by injection H2 as <-).
    destruct (update_enabled (enabled_plugins c1) d); cbn in H2; try done.
    by injection H2 as <-. }
  set (c3 := match Json.get "extraKnownMarketplaces" data with
             | Some (JObj d) => with_known c2 _
             | _ => c2
             end).
  assert (Hc3 : hooks c3 = hooks config).
  { rewrite <- Hc2. unfold c3.
    by destruct (Json.get "extraKnownMarketplaces" data)
      as [[| | | | |d]|]. }
  assert (Hmerge : forall parsed,
            (let* h := parsed in
             Ok (with_hooks c3 (Hooks.merge (hooks c3) h))) = Ok config' ->
            exists h, hooks config' = Hooks.merge (hooks config) h).
  { intros [h| |]; cbn [Py.bind]; try done. intros [= <-].
    exists h. cbn. by rewrite Hc3. }
  destruct (Parser.has_event_key data); [apply Hmerge|].
  destruct (Json.get "hooks" data) as [[| | | | |hooks_val]|];
    try (intros [= <-]; exists Hooks.empty; by rewrite merge_empty_r, Hc3).
  destruct (Parser.has_event_key hooks_val); apply Hmerge.
Qed.

(** Applying a settings file never removes, replaces or reorders hook rules
    that are already registered: for every event the rules after the call
    are the rules before it followed by those of the file. The same holds
    for the whole settings chain of [load_config]. A settings path at which
    there is nothing leaves the configuration as it was. *)
Theorem settings_only_append_rules (config config' : Config) (f : fs)
    (p global_dir : path) (project_dirs : list path) (event : string) :
  (_apply_settings config f p = Ok config' ->
   exists added,
     Hooks.get_rules (hooks config') event
     = Hooks.get_rules (hooks config) event ++ added)
  /\ (load_settings config f global_dir project_dirs = Ok config' ->
      exists added,
        Hooks.get_rules (hooks config') event
        = Hooks.get_rules (hooks config) event ++ added)
  /\ (f p = Absent -> _apply_settings config f p = Ok config).
Proof.
  assert (Hone : forall c c' q,
            _apply_settings c f q = Ok c' ->
            exists added,
              Hooks.get_rules (hooks c') event
              = Hooks.get_rules (hooks c) event ++ added).
  { intros c c' q Hq. destruct (apply_settings_hooks c c' f q Hq) as [h ->].
    exists (Hooks.get_rules h event). apply get_rules_merge. }
  assert (Hfold : forall name dirs acc c',
            fold_left (fun acc dir =>
                         let* c := acc in
                         _apply_settings c f (joinpath dir name)) dirs acc
              = Ok c' ->
            exists c, acc = Ok c
              /\ exists added,
                   Hooks.get_rules (hooks c') event
                   = Hooks.get_rules (hooks c) event ++ added).
  { intros name dirs. induction dirs as [|d dirs IH]; intros acc c' Hrun.
    - cbn in Hrun. exists c'. split; [done|]. exists []. by rewrite app_nil_r.
    - cbn [fold_left] in Hrun. destruct (IH _ _ Hrun) as (c1 & Hc1 & a1 & Ha1).
      destruct acc as [c| |]; cbn [Py.bind] in Hc1; try done.
      exists c. split; [done|].
      destruct (Hone _ _ _ Hc1) as (a0 & Ha0).
      exists (a0 ++ a1). by rewrite Ha1, Ha0, app_assoc. }
  split; [apply Hone|]. split.
  - unfold load_settings.
    destruct (_apply_settings config f (joinpath global_dir "settings.json"))
      as [c0| |] eqn:H0; cbn [Py.bind]; try done.
    destruct (fold_left _ project_dirs (Ok c0)) as [c1| |] eqn:H1;
      cbn [Py.bind]; try done.
    intros H2.
    destruct (Hone _ _ _ H0) as (a0 & Ha0).
    destruct (Hfold _ _ _ _ H1) as (c0' & [= <-] & a1 & Ha1).
    destruct (Hfold _ _ _ _ H2) as (c1' & [= <-] & a2 & Ha2).
    exists (a0 ++ a1 ++ a2). by rewrite Ha2, Ha1, Ha0, !app_assoc.
  - intros Habs. unfold _apply_settings, exists_. by rewrite Habs.
Qed.

(** The model selector is overwritten by the file that names one, and left
    alone by a file that does not: among non-hook settings the last file
    wins. *)
Theorem settings_model_last_wins (config config' : Config) (f : fs)
    (p : path) (text : string) (data : Json.dict) :
  f p = File text ->
  json_loads text = Some (JObj data) ->
  _apply_settings config f p = Ok config' ->
  match Json.get "model" data with
  | Some v => v = JStr (model config')
  | None => model config' = model config
  end.
Proof.
  intros Hf Hj. unfold _apply_settings, exists_, read_text.
  rewrite Hf. cbn [Py.bind negb]. rewrite Hj.
  destruct (match Json.get "model" data with
            | Some v => _
            | None => Ok config
            end) as [c1| |] eqn:H1; cbn [Py.bind]; try done.
  assert (Hc1 : match Json.get "model" data with
                | Some v => v = JStr (model c1)
                | None => model c1 = model config
                end).
  { destruct (Json.get "model" data) as [v|]; [|by injection H1 as <-].
    destruct v; cbn in H1; try done. by injection H1 as <-. }
  destruct (match Json.get "enabledPlugins" data with
            | Some (JObj d) => _
            | _ => Ok c1
            end) as [c2| |] eqn:H2; cbn [Py.bind]; try done.
  assert (Hc2 : model c2 = model c1).
  { destruct (Json.get "enabledPlugins" data) as [[| | | | |d]|];
      try (by injection H2 as <-).
    destruct (update_enabled (enabled_plugins c1) d); cbn in H2; try done.
    by injection H2 as <-. }
  set (c3 := match Json.get "extraKnownMarketplaces" data with
             | Some (JObj d) => with_known c2 _
             | _ => c2
             end).
  assert (Hc3 : model c3 = model c1).
  { rewrite <- Hc2. unfold c3.
    by destruct (Json.get "extraKnownMarketplaces" data)
      as [[| | | | |d]|]. }
  assert (Hfinal : model config' = model c1 ->
                   match Json.get "model" data with
                   | Some v => v = JStr (model config')
                   | None => model config' = model config
                   end).
  { intros ->. exact Hc1. }
  assert (Hmerge : forall parsed,
            (let* h := parsed in
             Ok (with_hooks c3 (Hooks.merge (hooks c3) h))) = Ok config' ->
            model config' = model c1).
  { intros [h| |]; cbn [Py.bind]; try done. by intros [= <-]. }
  destruct (Parser.has_event_key data);
    [intros Hm; by apply Hfinal, (Hmerge _ Hm)|].
  destruct (Json.get "hooks" data) as [[| | | | |hooks_val]|];
    try (intros [= <-]; by apply Hfinal).
  destruct (Parser.has_event_key hooks_val); intros Hm;
    by apply Hfinal, (Hmerge _ Hm).
Qed.

End Settings.
